(** * Conversation orchestration of the Maveric RADP documentation client

    A shallow embedding of the React front end: the [Dashboard] host
    component, the legacy [ChatWidget], the [GuidedTour] state machine, the
    [InputBox] composer and the [Sidebar] navigation.  Component state is a
    record, every handler is a function on that state, and the one
    asynchronous handler of each host ([handleSendMessage]) is cut at its
    [await] into the part that runs when the user acts and the part that
    runs when the request settles. *)

From Stdlib Require Import String Ascii List Bool Arith Lia.
From stdpp Require Import base list strings gmap.

Open Scope string_scope.
Open Scope list_scope.
Open Scope nat_scope.

(** ** JavaScript strings *)

Module JS.

(** A string is its sequence of code units; the ones a byte can hold are
    enough for every text of the source.  [isWhiteSpace] is the ECMAScript
    WhiteSpace and LineTerminator set on those code units: TAB, LF, VT, FF,
    CR, SP and NBSP. *)
Definition isWhiteSpace (c : ascii) : bool :=
  let n := nat_of_ascii c in
  ((n =? 9) || (n =? 10) || (n =? 11) || (n =? 12) || (n =? 13)
   || (n =? 32) || (n =? 160)).

Fixpoint trimStart (s : string) : string :=
  match s with
  | EmptyString => EmptyString
  | String c s' => if isWhiteSpace c then trimStart s' else s
  end.

Fixpoint trimEnd (s : string) : string :=
  match s with
  | EmptyString => EmptyString
  | String c s' =>
      match trimEnd s' with
      | EmptyString => if isWhiteSpace c then EmptyString else String c EmptyString
      | t => String c t
      end
  end.

(** [String.prototype.trim] *)
Definition trim (s : string) : string := trimEnd (trimStart s).

(** ToBoolean on a string: only the empty string is falsy. *)
Definition truthy (s : string) : bool :=
  match s with
  | EmptyString => false
  | String _ _ => true
  end.

(** [s.replace(pat, rep)] with a one-character string pattern: only the
    first occurrence is replaced. *)
Fixpoint replace (pat rep : ascii) (s : string) : string :=
  match s with
  | EmptyString => EmptyString
  | String c s' =>
      if Ascii.eqb c pat then String rep s' else String c (replace pat rep s')
  end.

End JS.

(** ** Messages of the timeline *)

Inductive Role := user | assistant | system.

(** A message object.  A field the object does not carry ([undefined]) is
    [None]; [isError] absent is [false].  Citation references and the
    diagram specification are opaque to the client and kept as text. *)
Record Message := mkMessage {
  role : Role;
  content : option string;
  timestamp : option string;
  sources : option (list string);
  visualization : option string;
  suggestions : option (list string);
  isError : bool
}.

#[global] Instance Role_eq_dec : EqDecision Role.
Proof. solve_decision. Defined.

#[global] Instance Message_eq_dec : EqDecision Message.
Proof. solve_decision. Defined.

(** Forward composition of state updates: [f >> g] runs [f], then [g]. *)
Definition seq_upd {W : Type} (f g : W -> W) : W -> W := fun w => g (f w).
Infix ">>" := seq_upd (at level 61, left associativity).

(** ** GuidedTour.js *)

Module GuidedTour.

(** A stage descriptor of the script.  The [content] body is markup text
    that only the renderer reads; no handler looks at it. *)
Record Stage := mkStage {
  name : string;
  title : string;
  deepDivePrompt : string;
  continuePrompt : string
}.

(** [useState(0)], [useState(false)] *)
Record State := mkState {
  currentStage : nat;
  tourStarted : bool
}.

Definition initial : State := {| currentStage := 0; tourStarted := false |}.

(** The two callback props the host passes in. *)
Inductive Callback :=
| onSendMessage (message : string)
| onExitTour.

Section Handlers.

Variable stages : list Stage.

Definition handleStartTour (st : State) : State * list Callback :=
  ({| currentStage := currentStage st; tourStarted := true |}, []).

(** [stages.length - 1] is an integer subtraction in the source; on the
    naturals it truncates at zero, which gives the same comparison
    against a stage index (see [continue_guard_integer]). *)
Definition handleContinue (st : State) : State * list Callback :=
  if (currentStage st <? length stages - 1)
  then ({| currentStage := currentStage st + 1; tourStarted := tourStarted st |}, [])
  else (st, [onExitTour]).

(** [stages[currentStage].deepDivePrompt]; reading a field of [undefined]
    throws before the callback is reached. *)
Definition handleDeepDive (st : State) : State * list Callback :=
  match stages !! currentStage st with
  | Some stage => (st, [onSendMessage (deepDivePrompt stage)])
  | None => (st, [])
  end.

Definition handleAskQuestion (st : State) : State * list Callback :=
  (st, [onExitTour]).

Definition handleStageClick (index : nat) (st : State) : State * list Callback :=
  if ((index <=? currentStage st) || (index =? currentStage st + 1))
  then ({| currentStage := index; tourStarted := tourStarted st |}, [])
  else (st, []).

(** The buttons of the tour, as the render function lays them out: the
    welcome screen offers start and ask, a stage screen offers continue,
    deep dive, ask and the progress tracker entries. *)
Inductive Action :=
| StartTour
| Continue
| DeepDive
| AskQuestion
| StageClick (index : nat).

Definition rendered (a : Action) (st : State) : bool :=
  match a with
  | StartTour => negb (tourStarted st)
  | AskQuestion => true
  | Continue | DeepDive => tourStarted st
  | StageClick index => tourStarted st && (index <? length stages)
  end.

Definition click (a : Action) (st : State) : State * list Callback :=
  if rendered a st then
    match a with
    | StartTour => handleStartTour st
    | Continue => handleContinue st
    | DeepDive => handleDeepDive st
    | AskQuestion => handleAskQuestion st
    | StageClick index => handleStageClick index st
    end
  else (st, []).

(** A run of clicks while the component stays mounted: the states
    visited after each click and every callback invoked, in order. *)
Fixpoint clicks (acts : list Action) (st : State) : list State * list Callback :=
  match acts with
  | [] => ([], [])
  | a :: acts' =>
      let '(st', cbs) := click a st in
      let '(visited, cbs') := clicks acts' st' in
      (st' :: visited, cbs ++ cbs')
  end.

End Handlers.

Definition stages : list Stage := [
  {| name := "Overview";
     title := "What is Maveric RADP?";
     deepDivePrompt := "Explain the key benefits and use cases of Maveric RADP in detail";
     continuePrompt := "Continue to Setup" |};
  {| name := "Setup";
     title := "Stage 1: Simulation Configuration";
     deepDivePrompt := "Show me detailed examples of network topology configuration and simulation parameters";
     continuePrompt := "Continue to Digital Twin" |};
  {| name := "Digital Twin";
     title := "Stage 2: Digital Twin Intelligence";
     deepDivePrompt := "Explain how the Digital Twin training process works and what algorithms are used";
     continuePrompt := "Continue to RF Prediction" |};
  {| name := "RF Prediction";
     title := "Stage 3: RF Performance Analysis";
     deepDivePrompt := "Show me examples of RF prediction outputs and how to interpret coverage maps";
     continuePrompt := "Continue to Orchestration" |};
  {| name := "Orchestration";
     title := "Stage 4: Workflow Orchestration";
     deepDivePrompt := "Explain the orchestration architecture and how distributed processing works";
     continuePrompt := "Complete Tour" |}
].

(** The tour state machine of the specification, read off the component. *)
Inductive TourState :=
| NotStarted
| StageAt (i : nat).

Definition tourState (st : State) : TourState :=
  if tourStarted st then StageAt (currentStage st) else NotStarted.

End GuidedTour.

(** ** InputBox.js *)

Module InputBox.

(** [useState('')], [useState(false)] *)
Record State := mkState {
  message : string;
  isFocused : bool
}.

Definition initial : State := {| message := ""; isFocused := false |}.

Inductive Callback :=
| onSendMessage (message : string).

(** [onChange={(e) => setMessage(e.target.value)}] *)
Definition handleChange (value : string) (st : State) : State :=
  {| message := value; isFocused := isFocused st |}.

(** The [disabled] prop is the host's loading flag. *)
Definition handleSubmit (disabled : bool) (st : State) : State * list Callback :=
  if JS.truthy (JS.trim (message st)) && negb disabled
  then ({| message := ""; isFocused := isFocused st |}, [onSendMessage (message st)])
  else (st, []).

Definition handleKeyDown (key : string) (shiftKey disabled : bool) (st : State)
  : State * list Callback :=
  if String.eqb key "Enter" && negb shiftKey
  then handleSubmit disabled st
  else (st, []).

Definition handleFocus (st : State) : State :=
  {| message := message st; isFocused := true |}.

Definition handleBlur (st : State) : State :=
  {| message := message st; isFocused := false |}.

End InputBox.

(** ** Sidebar (second component of ProgressTracker.js) *)

Module Sidebar.

Inductive Callback :=
| onNewConversation
| onSendMessage (message : string).

(** The [switch] of [handleNavigation]; the [ask-now] case only moves the
    DOM focus to the composer. *)
Definition handleNavigation (section : string) : list Callback :=
  if String.eqb section "home" then [onNewConversation]
  else if String.eqb section "guided-tour" then [onNewConversation]
  else if String.eqb section "ask-now" then []
  else if String.eqb section "api" then
    [onSendMessage "Show me the complete API reference documentation for Maveric RADP"]
  else if String.eqb section "quickstart" then
    [onSendMessage "Give me a quick start guide for getting started with Maveric RADP. What are the first steps?"]
  else [].

End Sidebar.

(** ** The remote service, as the client sees it *)

(** Body of [POST /api/v1/chat]. *)
Record ChatRequest := mkChatRequest {
  req_message : string;
  req_session_id : option string;
  req_mode : string;
  req_module : option string
}.

(** [response.data] of a chat answer; a field the payload lacks reads as
    [undefined], here [None]. *)
Record ChatResponse := mkChatResponse {
  resp_response : option string;
  resp_timestamp : option string;
  resp_sources : option (list string);
  resp_visualization : option string;
  resp_suggestions : option (list string)
}.

(** How [await axios.post(...)] ends: the promise rejects (no response, or
    a status outside 2xx), or it resolves with [response.data], which is
    [None] when the body is [null]. *)
Inductive Outcome :=
| Rejected
| Resolved (data : option ChatResponse).

(** An entry of [response.data.messages] of a history answer. *)
Record HistoryMessage := mkHistoryMessage {
  h_role : Role;
  h_content : option string;
  h_timestamp : option string;
  h_sources : option (list string);
  h_visualization : option string
}.

(** [response.data] of [GET /api/v1/chat/history/{sid}]; [messages] absent
    is [None]. *)
Record HistoryData := mkHistoryData {
  h_messages : option (list HistoryMessage)
}.

Inductive HistoryOutcome :=
| HistoryRejected
| HistoryResolved (data : option HistoryData).

(** The object literal both [loadHistory] functions map over the entries. *)
Definition formatHistoryMessage (msg : HistoryMessage) : Message :=
  {| role := h_role msg;
     content := h_content msg;
     timestamp := h_timestamp msg;
     sources := h_sources msg;
     visualization := h_visualization msg;
     suggestions := None;
     isError := false |}.

(** The [userMessage] literal of both [handleSendMessage] functions; [now]
    is [new Date().toISOString()] at the call. *)
Definition userMessage (message now : string) : Message :=
  {| role := user;
     content := Some message;
     timestamp := Some now;
     sources := None;
     visualization := None;
     suggestions := None;
     isError := false |}.

(** The [botMessage] literal of both [handleSendMessage] functions. *)
Definition botMessage (data : ChatResponse) : Message :=
  {| role := assistant;
     content := resp_response data;
     timestamp := resp_timestamp data;
     sources := resp_sources data;
     visualization := resp_visualization data;
     suggestions := resp_suggestions data;
     isError := false |}.

Definition session_key : string := "docbot_session_id".

Definition LF : string := String (ascii_of_nat 10) EmptyString.

(** ** Dashboard.js (the host component rendered by App.js) *)

Module Dashboard.

(** The [useState] cells of the component. *)
Record State := mkState {
  messages : list Message;
  isLoading : bool;
  sessionId : option string;
  selectedModule : option string;
  sidebarCollapsed : bool;
  showGuidedTour : bool
}.

(** The component together with what surrounds it: the mounted
    [GuidedTour] child ([None] while it is not in the tree), the composer,
    the browser's [localStorage], the log of chat requests sent, the number
    of chat requests whose promise has not settled, and the session whose
    history fetch has not settled. *)
Record World := mkWorld {
  ui : State;
  tour : option GuidedTour.State;
  composer : InputBox.State;
  localStorage : gmap string string;
  posted : list ChatRequest;
  pending : nat;
  fetching : option string
}.

Definition with_ui (f : State -> State) (w : World) : World :=
  {| ui := f (ui w); tour := tour w; composer := composer w;
     localStorage := localStorage w; posted := posted w;
     pending := pending w; fetching := fetching w |}.

Definition setMessages (f : list Message -> list Message) : World -> World :=
  with_ui (fun s =>
    {| messages := f (messages s); isLoading := isLoading s;
       sessionId := sessionId s; selectedModule := selectedModule s;
       sidebarCollapsed := sidebarCollapsed s;
       showGuidedTour := showGuidedTour s |}).

Definition setIsLoading (b : bool) : World -> World :=
  with_ui (fun s =>
    {| messages := messages s; isLoading := b;
       sessionId := sessionId s; selectedModule := selectedModule s;
       sidebarCollapsed := sidebarCollapsed s;
       showGuidedTour := showGuidedTour s |}).

Definition setSessionId (sid : string) : World -> World :=
  with_ui (fun s =>
    {| messages := messages s; isLoading := isLoading s;
       sessionId := Some sid; selectedModule := selectedModule s;
       sidebarCollapsed := sidebarCollapsed s;
       showGuidedTour := showGuidedTour s |}).

Definition setSidebarCollapsed (b : bool) : World -> World :=
  with_ui (fun s =>
    {| messages := messages s; isLoading := isLoading s;
       sessionId := sessionId s; selectedModule := selectedModule s;
       sidebarCollapsed := b;
       showGuidedTour := showGuidedTour s |}).

Definition setShowGuidedTour (b : bool) : World -> World :=
  with_ui (fun s =>
    {| messages := messages s; isLoading := isLoading s;
       sessionId := sessionId s; selectedModule := selectedModule s;
       sidebarCollapsed := sidebarCollapsed s;
       showGuidedTour := b |}).

(** [localStorage.setItem(key, value)] *)
Definition setItem (key value : string) (w : World) : World :=
  {| ui := ui w; tour := tour w; composer := composer w;
     localStorage := <[key := value]> (localStorage w); posted := posted w;
     pending := pending w; fetching := fetching w |}.

(** [axios.post(`${API_URL}/api/v1/chat`, body)]: the request leaves and
    its promise is pending. *)
Definition axios_post (body : ChatRequest) (w : World) : World :=
  {| ui := ui w; tour := tour w; composer := composer w;
     localStorage := localStorage w; posted := posted w ++ [body];
     pending := S (pending w); fetching := fetching w |}.

(** [axios.get(`${API_URL}/api/v1/chat/history/${sid}`)] *)
Definition axios_get_history (sid : string) (w : World) : World :=
  {| ui := ui w; tour := tour w; composer := composer w;
     localStorage := localStorage w; posted := posted w;
     pending := pending w; fetching := Some sid |}.

Definition settle_one (w : World) : World :=
  {| ui := ui w; tour := tour w; composer := composer w;
     localStorage := localStorage w; posted := posted w;
     pending := Nat.pred (pending w); fetching := fetching w |}.

Definition settle_history (w : World) : World :=
  {| ui := ui w; tour := tour w; composer := composer w;
     localStorage := localStorage w; posted := posted w;
     pending := pending w; fetching := None |}.

Definition with_tour (t : option GuidedTour.State) (w : World) : World :=
  {| ui := ui w; tour := t; composer := composer w;
     localStorage := localStorage w; posted := posted w;
     pending := pending w; fetching := fetching w |}.

Definition with_composer (c : InputBox.State) (w : World) : World :=
  {| ui := ui w; tour := tour w; composer := c;
     localStorage := localStorage w; posted := posted w;
     pending := pending w; fetching := fetching w |}.

(** *** loadHistory *)

(** The body of the [try] once the fetch has ended; a rejected fetch goes
    to the [catch], which only logs. *)
Definition loadHistory_settled (o : HistoryOutcome) : World -> World :=
  settle_history >>
  match o with
  | HistoryResolved (Some data) =>
      match h_messages data with
      | Some (msg :: rest) =>
          setMessages (fun _ => map formatHistoryMessage (msg :: rest))
          >> setShowGuidedTour false
      | Some [] | None => id
      end
  | HistoryResolved None | HistoryRejected => id
  end.

Definition loadHistory (sid : string) : World -> World :=
  axios_get_history sid.

(** *** handleSendMessage *)

(** The text of the [errorMessage] literal up to the interpolated clock
    reading. *)
Definition errorScript : string :=
  String.concat "" [
    "**Error Processing Request**"; LF; LF;
    "We encountered an issue processing your request. This could be due to:"; LF; LF;
    "- Temporary connectivity issues"; LF;
    "- Server maintenance"; LF;
    "- Invalid request format"; LF; LF;
    "**What to try:**"; LF;
    "1. Check your internet connection"; LF;
    "2. Retry your request"; LF;
    "3. Try rephrasing your question"; LF;
    "4. Start a new conversation (âŒ˜K / Ctrl+K)"; LF; LF;
    "If the issue persists, please contact technical support."; LF; LF;
    "*Timestamp: "
  ].

(** The [errorMessage] literal reads the clock twice: [now1] inside the
    body, [now2] for the [timestamp] field. *)
Definition errorMessage (now1 now2 : string) : Message :=
  {| role := assistant;
     content := Some (errorScript +:+ now1 +:+ "*");
     timestamp := Some now2;
     sources := None;
     visualization := None;
     suggestions := None;
     isError := true |}.

(** The request body; [sessionId] and [selectedModule] are the values of
    the render whose closure is running. *)
Definition chatRequest (message : string) (s : State) : ChatRequest :=
  {| req_message := message;
     req_session_id := sessionId s;
     req_mode := "general_qa";
     req_module := selectedModule s |}.

(** Lines 89-100: everything the handler does before it enters the [try]. *)
Definition handleSendMessage_before_post (message now : string) : World -> World :=
  setShowGuidedTour false
  >> setMessages (fun prev => prev ++ [userMessage message now])
  >> setIsLoading true.

(** The handler up to its [await]: the guard, the optimistic append, the
    loading flag, and the request. *)
Definition handleSendMessage (message now : string) (w : World) : World :=
  if negb (JS.truthy (JS.trim message)) then w
  else (handleSendMessage_before_post message now
        >> axios_post (chatRequest message (ui w))) w.

(** The rest of the handler, run when the awaited promise settles: the
    remainder of the [try] (reading [response.data.response] throws when
    [response.data] is [null]), the [catch], then the [finally]. *)
Definition handleSendMessage_settled (o : Outcome) (now1 now2 : string) : World -> World :=
  match o with
  | Resolved (Some data) => setMessages (fun prev => prev ++ [botMessage data])
  | Resolved None | Rejected => setMessages (fun prev => prev ++ [errorMessage now1 now2])
  end
  >> setIsLoading false
  >> settle_one.

Definition handleSuggestionClick (suggestion now : string) : World -> World :=
  handleSendMessage suggestion now.

Definition handleExitTour : World -> World :=
  setShowGuidedTour false.

(** [uuid] is the value [uuidv4()] returns at the call. *)
Definition handleNewConversation (uuid : string) : World -> World :=
  setSessionId uuid
  >> setItem session_key uuid
  >> setMessages (fun _ => [])
  >> setShowGuidedTour true.

(** The [keydown] listener; the [/] chord only moves the DOM focus. *)
Definition handleKeyboardShortcuts (metaKey ctrlKey : bool) (key uuid : string)
  : World -> World :=
  if (metaKey || ctrlKey) && String.eqb key "k"
  then handleNewConversation uuid
  else id.

(** *** Rendering *)

Inductive View := TourView | TimelineView.

(** [showGuidedTour && messages.length === 0 ? <GuidedTour/> : <>...</>] *)
Definition activeView (s : State) : View :=
  if showGuidedTour s && (length (messages s) =? 0)
  then TourView else TimelineView.

(** React keeps the state of a child that stays in the tree, creates it
    afresh when it enters the tree and drops it when it leaves. *)
Definition render (w : World) : World :=
  match activeView (ui w) with
  | TourView =>
      with_tour (Some (match tour w with
                       | Some t => t
                       | None => GuidedTour.initial
                       end)) w
  | TimelineView => with_tour None w
  end.

(** A suggestion button exists for every entry of the [suggestions] of a
    message bubble that is not a system message, while the timeline is the
    active view. *)
Definition suggestion_rendered (suggestion : string) (s : State) : bool :=
  match activeView s with
  | TourView => false
  | TimelineView =>
      existsb (fun m =>
        match role m, suggestions m with
        | system, _ => false
        | _, Some l => existsb (String.eqb suggestion) l
        | _, None => false
        end) (messages s)
  end.

(** *** Mounting: the session effect *)

Definition initial_state : State :=
  {| messages := []; isLoading := false; sessionId := None;
     selectedModule := None; sidebarCollapsed := false;
     showGuidedTour := true |}.

Definition initial_world (storage : gmap string string) : World :=
  {| ui := initial_state; tour := None; composer := InputBox.initial;
     localStorage := storage; posted := []; pending := 0; fetching := None |}.

Definition mount (storage : gmap string string) (uuid : string) : World :=
  render
    (match storage !! session_key with
     | Some storedSessionId =>
         if JS.truthy storedSessionId
         then (setSessionId storedSessionId >> loadHistory storedSessionId)
                (initial_world storage)
         else (setSessionId uuid >> setItem session_key uuid) (initial_world storage)
     | None => (setSessionId uuid >> setItem session_key uuid) (initial_world storage)
     end).

(** *** Events *)

(** What can happen to a mounted dashboard.  [now], [now1], [now2] are
    clock readings and [uuid] a generated token, consumed when the handler
    asks for one. *)
Inductive Event :=
| ComposerChange (value : string)
| ComposerSubmit (now : string)
| SuggestionClick (suggestion now : string)
| SidebarNavigation (section uuid now : string)
| SidebarNewConversation (uuid : string)
| SidebarToggle
| KeyDown (metaKey ctrlKey : bool) (key uuid : string)
| TourClick (a : GuidedTour.Action) (now : string)
| ChatSettled (o : Outcome) (now1 now2 : string)
| HistorySettled (o : HistoryOutcome).

Definition runTourCallback (now : string) (cb : GuidedTour.Callback) : World -> World :=
  match cb with
  | GuidedTour.onSendMessage message => handleSendMessage message now
  | GuidedTour.onExitTour => handleExitTour
  end.

Definition runSidebarCallback (uuid now : string) (cb : Sidebar.Callback) : World -> World :=
  match cb with
  | Sidebar.onNewConversation => handleNewConversation uuid
  | Sidebar.onSendMessage message => handleSendMessage message now
  end.

Definition runComposerCallback (now : string) (cb : InputBox.Callback) : World -> World :=
  match cb with
  | InputBox.onSendMessage message => handleSendMessage message now
  end.

Definition runAll {A} (run : A -> World -> World) (cbs : list A) (w : World) : World :=
  fold_left (fun w' cb => run cb w') cbs w.

Definition dispatch (e : Event) (w : World) : World :=
  match e with
  | ComposerChange value =>
      if isLoading (ui w) then w
      else with_composer (InputBox.handleChange value (composer w)) w
  | ComposerSubmit now =>
      let '(c, cbs) := InputBox.handleSubmit (isLoading (ui w)) (composer w) in
      runAll (runComposerCallback now) cbs (with_composer c w)
  | SuggestionClick suggestion now =>
      if suggestion_rendered suggestion (ui w)
      then handleSuggestionClick suggestion now w
      else w
  | SidebarNavigation section uuid now =>
      runAll (runSidebarCallback uuid now) (Sidebar.handleNavigation section) w
  | SidebarNewConversation uuid => handleNewConversation uuid w
  | SidebarToggle => setSidebarCollapsed (negb (sidebarCollapsed (ui w))) w
  | KeyDown metaKey ctrlKey key uuid =>
      handleKeyboardShortcuts metaKey ctrlKey key uuid w
  | TourClick a now =>
      match tour w with
      | Some t =>
          let '(t', cbs) := GuidedTour.click GuidedTour.stages a t in
          runAll (runTourCallback now) cbs (with_tour (Some t') w)
      | None => w
      end
  | ChatSettled o now1 now2 =>
      match pending w with
      | 0 => w
      | S _ => handleSendMessage_settled o now1 now2 w
      end
  | HistorySettled o =>
      match fetching w with
      | Some _ => loadHistory_settled o w
      | None => w
      end
  end.

(** One event, then the re-render it causes. *)
Definition step (w : World) (e : Event) : World := render (dispatch e w).

Definition run (es : list Event) (w : World) : World := fold_left step es w.

(** The worlds a run passes through, one per event. *)
Fixpoint trace (es : list Event) (w : World) : list World :=
  match es with
  | [] => []
  | e :: es' => step w e :: trace es' (step w e)
  end.

(** The tour state machine as the host sees it: no mounted tour child is
    the hidden tour. *)
Inductive TourState :=
| NotStarted
| StageAt (i : nat)
| Exited.

Definition tourState (w : World) : TourState :=
  match tour w with
  | None => Exited
  | Some t =>
      match GuidedTour.tourState t with
      | GuidedTour.NotStarted => NotStarted
      | GuidedTour.StageAt i => StageAt i
      end
  end.

(** One complete exchange: the send, then its settlement. *)
Record Exchange := mkExchange {
  x_text : string;
  x_now : string;
  x_outcome : Outcome;
  x_now1 : string;
  x_now2 : string
}.

Definition terminalMessage (x : Exchange) : Message :=
  match x_outcome x with
  | Resolved (Some data) => botMessage data
  | Resolved None | Rejected => errorMessage (x_now1 x) (x_now2 x)
  end.

Definition exchange (w : World) (x : Exchange) : World :=
  handleSendMessage_settled (x_outcome x) (x_now1 x) (x_now2 x)
    (handleSendMessage (x_text x) (x_now x) w).

Definition exchanges (xs : list Exchange) (w : World) : World :=
  fold_left exchange xs w.

End Dashboard.

(** ** ChatWidget.js (the earlier host, with the mode selector) *)

Module ChatWidget.

Record State := mkState {
  messages : list Message;
  isLoading : bool;
  sessionId : option string;
  mode : string;
  selectedModule : option string;
  availableModes : list string;
  showWelcome : bool
}.

Record World := mkWorld {
  ui : State;
  localStorage : gmap string string;
  posted : list ChatRequest;
  pending : nat;
  fetching : option string
}.

Definition with_ui (f : State -> State) (w : World) : World :=
  {| ui := f (ui w); localStorage := localStorage w; posted := posted w;
     pending := pending w; fetching := fetching w |}.

Definition setMessages (f : list Message -> list Message) : World -> World :=
  with_ui (fun s =>
    {| messages := f (messages s); isLoading := isLoading s;
       sessionId := sessionId s; mode := mode s;
       selectedModule := selectedModule s;
       availableModes := availableModes s; showWelcome := showWelcome s |}).

Definition setIsLoading (b : bool) : World -> World :=
  with_ui (fun s =>
    {| messages := messages s; isLoading := b;
       sessionId := sessionId s; mode := mode s;
       selectedModule := selectedModule s;
       availableModes := availableModes s; showWelcome := showWelcome s |}).

Definition setSessionId (sid : string) : World -> World :=
  with_ui (fun s =>
    {| messages := messages s; isLoading := isLoading s;
       sessionId := Some sid; mode := mode s;
       selectedModule := selectedModule s;
       availableModes := availableModes s; showWelcome := showWelcome s |}).

Definition setMode (newMode : string) : World -> World :=
  with_ui (fun s =>
    {| messages := messages s; isLoading := isLoading s;
       sessionId := sessionId s; mode := newMode;
       selectedModule := selectedModule s;
       availableModes := availableModes s; showWelcome := showWelcome s |}).

Definition setAvailableModes (modes : list string) : World -> World :=
  with_ui (fun s =>
    {| messages := messages s; isLoading := isLoading s;
       sessionId := sessionId s; mode := mode s;
       selectedModule := selectedModule s;
       availableModes := modes; showWelcome := showWelcome s |}).

Definition setShowWelcome (b : bool) : World -> World :=
  with_ui (fun s =>
    {| messages := messages s; isLoading := isLoading s;
       sessionId := sessionId s; mode := mode s;
       selectedModule := selectedModule s;
       availableModes := availableModes s; showWelcome := b |}).

Definition setItem (key value : string) (w : World) : World :=
  {| ui := ui w; localStorage := <[key := value]> (localStorage w);
     posted := posted w; pending := pending w; fetching := fetching w |}.

Definition axios_post (body : ChatRequest) (w : World) : World :=
  {| ui := ui w; localStorage := localStorage w; posted := posted w ++ [body];
     pending := S (pending w); fetching := fetching w |}.

Definition axios_get_history (sid : string) (w : World) : World :=
  {| ui := ui w; localStorage := localStorage w; posted := posted w;
     pending := pending w; fetching := Some sid |}.

Definition settle_one (w : World) : World :=
  {| ui := ui w; localStorage := localStorage w; posted := posted w;
     pending := Nat.pred (pending w); fetching := fetching w |}.

Definition settle_history (w : World) : World :=
  {| ui := ui w; localStorage := localStorage w; posted := posted w;
     pending := pending w; fetching := None |}.

(** [loadAvailableModes], once its fetch has ended. *)
Definition loadAvailableModes_settled (answer : option (list string)) : World -> World :=
  match answer with
  | Some modes => setAvailableModes modes
  | None => id
  end.

(** [loadHistory], once its fetch has ended: any [messages] array, empty
    or not, replaces the timeline. *)
Definition loadHistory_settled (o : HistoryOutcome) : World -> World :=
  settle_history >>
  match o with
  | HistoryResolved (Some data) =>
      match h_messages data with
      | Some l =>
          setMessages (fun _ => map formatHistoryMessage l)
          >> setShowWelcome false
      | None => id
      end
  | HistoryResolved None | HistoryRejected => id
  end.

Definition welcomeText : string :=
  String.concat "" [
    "Welcome to the Maveric RADP Documentation Assistant."; LF; LF;
    "**Available Interaction Modes:**"; LF;
    "- Full Overview - Comprehensive workflow guidance from start to finish"; LF;
    "- Module Deep-Dive - Detailed technical information on specific components"; LF;
    "- General Q&A - Direct answers to specific questions"; LF; LF;
    "**Core Platform Capabilities:**"; LF;
    "- Digital Twin training and RF prediction"; LF;
    "- UE track generation and simulation"; LF;
    "- Network orchestration and optimization"; LF;
    "- xApp/rApp algorithm development"; LF; LF;
    "Select a mode above or ask a question to begin."
  ].

Definition welcomeMsg (now : string) : Message :=
  {| role := assistant;
     content := Some welcomeText;
     timestamp := Some now;
     sources := None;
     visualization := None;
     suggestions := None;
     isError := false |}.

Definition addWelcomeMessage (now : string) : World -> World :=
  setMessages (fun _ => [welcomeMsg now]).

Definition errorMessage (now : string) : Message :=
  {| role := assistant;
     content := Some "An error occurred processing your request. Please try again or contact support if the issue persists.";
     timestamp := Some now;
     sources := None;
     visualization := None;
     suggestions := None;
     isError := true |}.

Definition chatRequest (message : string) (s : State) : ChatRequest :=
  {| req_message := message;
     req_session_id := sessionId s;
     req_mode := mode s;
     req_module := selectedModule s |}.

Definition handleSendMessage_before_post (message now : string) : World -> World :=
  setMessages (fun prev => prev ++ [userMessage message now])
  >> setShowWelcome false
  >> setIsLoading true.

Definition handleSendMessage (message now : string) (w : World) : World :=
  if negb (JS.truthy (JS.trim message)) then w
  else (handleSendMessage_before_post message now
        >> axios_post (chatRequest message (ui w))) w.

Definition handleSendMessage_settled (o : Outcome) (now : string) : World -> World :=
  match o with
  | Resolved (Some data) => setMessages (fun prev => prev ++ [botMessage data])
  | Resolved None | Rejected => setMessages (fun prev => prev ++ [errorMessage now])
  end
  >> setIsLoading false
  >> settle_one.

(** [`Mode changed to: ${newMode.replace('_', ' ')}`] *)
Definition modeChangeMsg (newMode now : string) : Message :=
  {| role := system;
     content := Some ("Mode changed to: " +:+ JS.replace "_" " " newMode);
     timestamp := Some now;
     sources := None;
     visualization := None;
     suggestions := None;
     isError := false |}.

Definition handleModeChange (newMode now : string) : World -> World :=
  setMode newMode
  >> setMessages (fun prev => prev ++ [modeChangeMsg newMode now]).

Definition handleSuggestionClick (suggestion now : string) : World -> World :=
  handleSendMessage suggestion now.

Definition handleNewConversation (uuid now : string) : World -> World :=
  setSessionId uuid
  >> setItem session_key uuid
  >> setMessages (fun _ => [])
  >> addWelcomeMessage now
  >> setShowWelcome true.

Definition initial_state : State :=
  {| messages := []; isLoading := false; sessionId := None;
     mode := "full_overview"; selectedModule := None;
     availableModes := []; showWelcome := true |}.

Definition initial_world (storage : gmap string string) : World :=
  {| ui := initial_state; localStorage := storage; posted := [];
     pending := 0; fetching := None |}.

(** The mount effect: session, then the modes fetch (its request changes
    nothing the component reads), then the welcome message. *)
Definition mount (storage : gmap string string) (uuid now : string) : World :=
  (match storage !! session_key with
   | Some storedSessionId =>
       if JS.truthy storedSessionId
       then setSessionId storedSessionId >> axios_get_history storedSessionId
       else setSessionId uuid >> setItem session_key uuid
   | None => setSessionId uuid >> setItem session_key uuid
   end
   >> addWelcomeMessage now) (initial_world storage).

Inductive Event :=
| ComposerSubmit (text now : string)
| SuggestionClick (suggestion now : string)
| ModeChange (newMode now : string)
| NewConversation (uuid now : string)
| ChatSettled (o : Outcome) (now : string)
| HistorySettled (o : HistoryOutcome)
| ModesSettled (answer : option (list string)).

Definition suggestion_rendered (suggestion : string) (s : State) : bool :=
  existsb (fun m =>
    match role m, suggestions m with
    | system, _ => false
    | _, Some l => existsb (String.eqb suggestion) l
    | _, None => false
    end) (messages s).

Definition step (w : World) (e : Event) : World :=
  match e with
  | ComposerSubmit text now =>
      let '(_, cbs) :=
        InputBox.handleSubmit (isLoading (ui w))
          {| InputBox.message := text; InputBox.isFocused := true |} in
      fold_left (fun w' cb =>
        match cb with
        | InputBox.onSendMessage message => handleSendMessage message now w'
        end) cbs w
  | SuggestionClick suggestion now =>
      if suggestion_rendered suggestion (ui w)
      then handleSuggestionClick suggestion now w
      else w
  | ModeChange newMode now => handleModeChange newMode now w
  | NewConversation uuid now => handleNewConversation uuid now w
  | ChatSettled o now =>
      match pending w with
      | 0 => w
      | S _ => handleSendMessage_settled o now w
      end
  | HistorySettled o =>
      match fetching w with
      | Some _ => loadHistory_settled o w
      | None => w
      end
  | ModesSettled answer => loadAvailableModes_settled answer w
  end.

Definition run (es : list Event) (w : World) : World := fold_left step es w.

End ChatWidget.

(** ** ProgressTracker.js *)

Module ProgressTracker.

Inductive Status := completed | current | upcoming.

Definition getStageStatus (currentStage index : nat) : Status :=
  if index <? currentStage then completed
  else if index =? currentStage then current
  else upcoming.

(** The indicator shows the check mark instead of the stage number. *)
Definition showsCheck (currentStage index : nat) : bool := index <? currentStage.

(** A connector follows every stage but the last of [n]. *)
Definition hasConnector (n index : nat) : bool := index <? n - 1.

(** The status classes of the whole tracker, [stages.map] over the indices. *)
Definition statuses (currentStage n : nat) : list Status :=
  map (getStageStatus currentStage) (seq 0 n).

End ProgressTracker.

(** ** What GuidedTour.js puts on its continue button *)

Module GuidedTourView.

(** [currentStage < stages.length - 1 ? stage.continuePrompt : 'Start Exploring'];
    [stage] is [stages[currentStage]], and the render throws on
    [stage.title] before it reaches the button when there is no such
    stage. *)
Definition continueLabel (stages : list GuidedTour.Stage) (st : GuidedTour.State)
  : option string :=
  match stages !! GuidedTour.currentStage st with
  | Some stage =>
      Some (if GuidedTour.currentStage st <? length stages - 1
            then GuidedTour.continuePrompt stage
            else "Start Exploring")
  | None => None
  end.

(** The stage index stays inside the script, and the welcome screen sits
    on stage 0. *)
Definition in_script (stages : list GuidedTour.Stage) (st : GuidedTour.State) : Prop :=
  GuidedTour.currentStage st < length stages
  /\ (GuidedTour.tourStarted st = false -> GuidedTour.currentStage st = 0).

End GuidedTourView.

(** ** MessageBubble.js: what a bubble shows *)

Module MessageBubble.

(** The tree [renderContent] returns, without its markup: a system notice,
    or a bubble with the role label, the error icon, the body, the source
    tags and the suggestion buttons. *)
Inductive Bubble :=
| SystemBubble (text : option string)
| RoleBubble (label : string) (errorIcon : bool) (body : option string)
    (sourceTags suggestionButtons : list string).

(** [x && x.length > 0 && x.map(...)] *)
Definition shown (l : option (list string)) : list string :=
  match l with
  | Some (x :: rest) => x :: rest
  | Some [] | None => []
  end.

Definition renderContent (message : Message) : Bubble :=
  match role message with
  | system => SystemBubble (content message)
  | r =>
      RoleBubble
        (match r with user => "You" | _ => "Assistant" end)
        (isError message)
        (content message)
        (shown (sources message))
        (shown (suggestions message))
  end.

Definition suggestionButtons (b : Bubble) : list string :=
  match b with
  | SystemBubble _ => []
  | RoleBubble _ _ _ _ buttons => buttons
  end.

End MessageBubble.

(** ** ThemeContext.js *)

Module ThemeContext.

Definition theme_key : string := "maveric_theme".

(** The provider's [isDarkMode] cell, whether the document element carries
    the [dark-mode] class, and the browser's [localStorage]. *)
Record World := mkWorld {
  isDarkMode : bool;
  darkClass : bool;
  localStorage : gmap string string
}.

(** The lazy initial state: [localStorage.getItem('maveric_theme') === 'dark']. *)
Definition initialIsDarkMode (storage : gmap string string) : bool :=
  match storage !! theme_key with
  | Some savedTheme => String.eqb savedTheme "dark"
  | None => false
  end.

(** The effect that runs after mount and after every change of
    [isDarkMode]. *)
Definition applyTheme (w : World) : World :=
  if isDarkMode w
  then {| isDarkMode := true; darkClass := true;
          localStorage := <[theme_key := "dark"]> (localStorage w) |}
  else {| isDarkMode := false; darkClass := false;
          localStorage := <[theme_key := "light"]> (localStorage w) |}.

Definition mount (hadClass : bool) (storage : gmap string string) : World :=
  applyTheme {| isDarkMode := initialIsDarkMode storage; darkClass := hadClass;
                localStorage := storage |}.

(** [setIsDarkMode(prev => !prev)], then the effect. *)
Definition toggleTheme (w : World) : World :=
  applyTheme {| isDarkMode := negb (isDarkMode w); darkClass := darkClass w;
                localStorage := localStorage w |}.

Fixpoint toggles (n : nat) (w : World) : World :=
  match n with
  | 0 => w
  | S n' => toggles n' (toggleTheme w)
  end.

End ThemeContext.

(** ** The keydown listener of the dashboard, with its DOM effects *)

Module Shortcuts.

Record KeyEvent := mkKeyEvent {
  metaKey : bool;
  ctrlKey : bool;
  key : string;
  targetTagName : string
}.

Inductive DomEffect :=
| preventDefault
| focusInput.

(** [['INPUT', 'TEXTAREA'].includes(e.target.tagName)] *)
Definition inEditable (e : KeyEvent) : bool :=
  existsb (String.eqb (targetTagName e)) ["INPUT"; "TEXTAREA"].

(** Both [if]s of the listener, in order; [inputBoxRef.current] is set
    while the dashboard is mounted. *)
Definition handleKeyboardShortcuts (e : KeyEvent) (uuid : string) (w : Dashboard.World)
  : Dashboard.World * list DomEffect :=
  let '(w1, fx1) :=
    if (metaKey e || ctrlKey e) && String.eqb (key e) "k"
    then (Dashboard.handleNewConversation uuid w, [preventDefault])
    else (w, []) in
  let fx2 :=
    if String.eqb (key e) "/" && negb (inEditable e)
    then [preventDefault; focusInput]
    else [] in
  (w1, fx1 ++ fx2).

End Shortcuts.

(** ** Kinds of dashboard events *)

(** The events that run [handleNewConversation]. *)
Definition is_reset (e : Dashboard.Event) : bool :=
  match e with
  | Dashboard.SidebarNewConversation _ => true
  | Dashboard.SidebarNavigation section _ _ =>
      String.eqb section "home" || String.eqb section "guided-tour"
  | Dashboard.KeyDown metaKey ctrlKey key _ =>
      (metaKey || ctrlKey) && String.eqb key "k"
  | _ => false
  end.

(** The events whose handler reaches [handleSendMessage] without passing
    the composer's [disabled] check. *)
Definition sends_ungated (e : Dashboard.Event) : bool :=
  match e with
  | Dashboard.SuggestionClick _ _ => true
  | Dashboard.SidebarNavigation section _ _ =>
      String.eqb section "api" || String.eqb section "quickstart"
  | Dashboard.TourClick GuidedTour.DeepDive _ => true
  | _ => false
  end.

Definition is_history (e : Dashboard.Event) : bool :=
  match e with
  | Dashboard.HistorySettled _ => true
  | _ => false
  end.

(** The session of the component is the token in the store. *)
Definition dashboard_session_inv (w : Dashboard.World) : Prop :=
  exists token : string,
    Dashboard.sessionId (Dashboard.ui w) = Some token
    /\ Dashboard.localStorage w !! session_key = Some token.

Definition widget_session_inv (w : ChatWidget.World) : Prop :=
  exists token : string,
    ChatWidget.sessionId (ChatWidget.ui w) = Some token
    /\ ChatWidget.localStorage w !! session_key = Some token.

(** Every request sent so far is well formed. *)
Definition well_formed_request (r : ChatRequest) : Prop :=
  JS.trim (req_message r) <> ""
  /\ is_Some (req_session_id r)
  /\ req_mode r = "general_qa"
  /\ req_module r = None.

Definition dashboard_requests_inv (w : Dashboard.World) : Prop :=
  is_Some (Dashboard.sessionId (Dashboard.ui w))
  /\ Dashboard.selectedModule (Dashboard.ui w) = None
  /\ Forall well_formed_request (Dashboard.posted w).

(** At most one request is out, and the loading flag says whether one is. *)
Definition single_flight (w : Dashboard.World) : Prop :=
  (Dashboard.pending w = 0 /\ Dashboard.isLoading (Dashboard.ui w) = false)
  \/ (Dashboard.pending w = 1 /\ Dashboard.isLoading (Dashboard.ui w) = true).

Definition dashboard_tour_inv (w : Dashboard.World) : Prop :=
  match Dashboard.tour w with
  | Some t => GuidedTourView.in_script GuidedTour.stages t
  | None => True
  end.

(** What one event can do to the dashboard before the re-render, handler
    by handler: the shape [dispatch] always takes. *)
Inductive dispatched : Dashboard.Event -> Dashboard.World -> Dashboard.World -> Prop :=
| disp_same e w :
    dispatched e w w
| disp_composer e c w :
    dispatched e w (Dashboard.with_composer c w)
| disp_toggle e b w :
    dispatched e w (Dashboard.setSidebarCollapsed b w)
| disp_tour e t w :
    dispatched e w (Dashboard.with_tour (Some t) w)
| disp_exit e t w :
    dispatched e w (Dashboard.handleExitTour (Dashboard.with_tour (Some t) w))
| disp_submit now w :
    Dashboard.isLoading (Dashboard.ui w) = false ->
    JS.trim (InputBox.message (Dashboard.composer w)) <> "" ->
    dispatched (Dashboard.ComposerSubmit now) w
      (Dashboard.handleSendMessage (InputBox.message (Dashboard.composer w)) now
         (Dashboard.with_composer
            {| InputBox.message := "";
               InputBox.isFocused := InputBox.isFocused (Dashboard.composer w) |} w))
| disp_send e message now w :
    sends_ungated e = true ->
    is_reset e = false ->
    dispatched e w (Dashboard.handleSendMessage message now w)
| disp_deep_dive now t stage w :
    Dashboard.tour w = Some t ->
    GuidedTour.tourStarted t = true ->
    GuidedTour.stages !! GuidedTour.currentStage t = Some stage ->
    dispatched (Dashboard.TourClick GuidedTour.DeepDive now) w
      (Dashboard.handleSendMessage (GuidedTour.deepDivePrompt stage) now
         (Dashboard.with_tour (Some t) w))
| disp_reset e uuid w :
    is_reset e = true ->
    dispatched e w (Dashboard.handleNewConversation uuid w)
| disp_settled o now1 now2 w :
    Dashboard.pending w <> 0 ->
    dispatched (Dashboard.ChatSettled o now1 now2) w
      (Dashboard.handleSendMessage_settled o now1 now2 w)
| disp_history o w :
    dispatched (Dashboard.HistorySettled o) w (Dashboard.loadHistory_settled o w).

(** One exchange through the composer of the chat widget: the submit and
    the settlement of its request. *)
Record WidgetExchange := mkWidgetExchange {
  wx_text : string;
  wx_now : string;
  wx_outcome : Outcome;
  wx_settled_at : string
}.

Definition widget_exchange_events (x : WidgetExchange) : list ChatWidget.Event :=
  [ChatWidget.ComposerSubmit (wx_text x) (wx_now x);
   ChatWidget.ChatSettled (wx_outcome x) (wx_settled_at x)].

Definition widget_terminal (x : WidgetExchange) : Message :=
  match wx_outcome x with
  | Resolved (Some data) => botMessage data
  | Resolved None | Rejected => ChatWidget.errorMessage (wx_settled_at x)
  end.

(** Whether a history answer carries at least one entry. *)
Definition history_entries (o : HistoryOutcome) : list HistoryMessage :=
  match o with
  | HistoryResolved (Some {| h_messages := Some l |}) => l
  | _ => []
  end.

(** ** Invariants of the two hosts *)

(** No chat request in flight means the loading flag is down. *)
Definition dashboard_idle_inv (w : Dashboard.World) : Prop :=
  Dashboard.pending w = 0 -> Dashboard.isLoading (Dashboard.ui w) = false.

Definition widget_idle_inv (w : ChatWidget.World) : Prop :=
  ChatWidget.pending w = 0 -> ChatWidget.isLoading (ChatWidget.ui w) = false.

(** * Properties *)

(** ** JavaScript strings *)

Lemma truthy_trim_iff (s : string) : JS.truthy (JS.trim s) = true <-> JS.trim s <> "".
Proof. destruct (JS.trim s); simpl; split; congruence. Qed.

Lemma blank_trim_iff (s : string) : JS.truthy (JS.trim s) = false <-> JS.trim s = "".
Proof. destruct (JS.trim s); simpl; split; congruence. Qed.

(** ** The guided tour *)

(** The truncated subtraction of [handleContinue] decides exactly what the
    integer comparison [currentStage < stages.length - 1] decides. *)
Lemma continue_guard_integer (i n : nat) :
  (i <? n - 1) = (Z.of_nat i <? Z.of_nat n - 1)%Z.
Proof.
  destruct (Nat.ltb_spec i (n - 1)); destruct (Z.ltb_spec (Z.of_nat i) (Z.of_nat n - 1));
    auto; lia.
Qed.

(** C5. From stage [i], a click on stage [j] of the progress tracker moves
    the tour to stage [j] exactly when [j <= i] or [j = i + 1]; for every
    other [j] the tour state is unchanged and no callback runs. *)
Theorem handleStageClick_jump_iff (i j : nat) (started : bool) :
  let st := {| GuidedTour.currentStage := i; GuidedTour.tourStarted := started |} in
  (GuidedTour.handleStageClick j st
     = ({| GuidedTour.currentStage := j; GuidedTour.tourStarted := started |}, [])
   <-> (j <= i \/ j = i + 1))
  /\ (~ (j <= i \/ j = i + 1) -> GuidedTour.handleStageClick j st = (st, [])).
Proof.
  intros st. unfold GuidedTour.handleStageClick, st. simpl.
  destruct (Nat.leb_spec j i) as [Hle | Hgt]; simpl.
  - split; [tauto | intros Hn; exfalso; apply Hn; now left].
  - destruct (Nat.eqb_spec j (i + 1)) as [-> | Hne].
    + split; [tauto | intros Hn; exfalso; apply Hn; now right].
    + split; [| reflexivity].
      split; [| lia].
      intros Heq. injection Heq as Heq. lia.
Qed.

Lemma handleStageClick_jump_iff_witness :
  let st := {| GuidedTour.currentStage := 1; GuidedTour.tourStarted := true |} in
  ~ (3 <= 1 \/ 3 = 1 + 1) /\ GuidedTour.handleStageClick 3 st = (st, []).
Proof.
  split; [lia |].
  apply (proj2 (handleStageClick_jump_iff 1 3 true)). lia.
Defined.

Lemma handleContinue_advance (script : list GuidedTour.Stage) (st : GuidedTour.State) :
  GuidedTour.currentStage st + 1 < length script ->
  GuidedTour.handleContinue script st
  = ({| GuidedTour.currentStage := GuidedTour.currentStage st + 1;
        GuidedTour.tourStarted := GuidedTour.tourStarted st |}, []).
Proof.
  intros H. unfold GuidedTour.handleContinue.
  destruct (Nat.ltb_spec (GuidedTour.currentStage st) (length script - 1)); [reflexivity | lia].
Qed.

Lemma handleContinue_last (script : list GuidedTour.Stage) (st : GuidedTour.State) :
  length script <= GuidedTour.currentStage st + 1 ->
  GuidedTour.handleContinue script st = (st, [GuidedTour.onExitTour]).
Proof.
  intros H. unfold GuidedTour.handleContinue.
  destruct (Nat.ltb_spec (GuidedTour.currentStage st) (length script - 1)); [lia | reflexivity].
Qed.

(** C6. On a script of [N] stages, continue moves stage [i] to stage
    [i + 1] while [i < N - 1]; on the last stage [N - 1] it leaves the stage
    alone and calls the exit callback once.  On the five stages of the
    source, start and four continues visit stages 0 to 4, the fifth
    continue calls the exit callback (the only callback of the whole run),
    and the dashboard then shows the tour as exited. *)
Theorem handleContinue_progression :
  (forall (script : list GuidedTour.Stage) (i : nat) (started : bool),
      i < length script - 1 ->
      GuidedTour.handleContinue script
        {| GuidedTour.currentStage := i; GuidedTour.tourStarted := started |}
      = ({| GuidedTour.currentStage := i + 1; GuidedTour.tourStarted := started |}, []))
  /\ (forall (script : list GuidedTour.Stage) (i : nat) (started : bool),
      i = length script - 1 ->
      GuidedTour.handleContinue script
        {| GuidedTour.currentStage := i; GuidedTour.tourStarted := started |}
      = ({| GuidedTour.currentStage := i; GuidedTour.tourStarted := started |},
         [GuidedTour.onExitTour]))
  /\ length GuidedTour.stages = 5
  /\ GuidedTour.clicks GuidedTour.stages
       [GuidedTour.StartTour; GuidedTour.Continue; GuidedTour.Continue;
        GuidedTour.Continue; GuidedTour.Continue; GuidedTour.Continue]
       GuidedTour.initial
     = (map (fun i => {| GuidedTour.currentStage := i; GuidedTour.tourStarted := true |})
          [0; 1; 2; 3; 4; 4],
        [GuidedTour.onExitTour])
  /\ (forall (storage : gmap string string) (uuid now : string),
      map Dashboard.tourState
        (Dashboard.trace
           [Dashboard.TourClick GuidedTour.StartTour now;
            Dashboard.TourClick GuidedTour.Continue now;
            Dashboard.TourClick GuidedTour.Continue now;
            Dashboard.TourClick GuidedTour.Continue now;
            Dashboard.TourClick GuidedTour.Continue now;
            Dashboard.TourClick GuidedTour.Continue now]
           (Dashboard.mount storage uuid))
      = [Dashboard.StageAt 0; Dashboard.StageAt 1; Dashboard.StageAt 2;
         Dashboard.StageAt 3; Dashboard.StageAt 4; Dashboard.Exited]).
Proof.
  split; [| split; [| split; [| split]]].
  - intros script i started H. apply handleContinue_advance. simpl. lia.
  - intros script i started ->. apply handleContinue_last. simpl. lia.
  - reflexivity.
  - reflexivity.
  - intros storage uuid now.
    unfold Dashboard.mount.
    destruct (storage !! session_key) as [sid |]; [destruct (JS.truthy sid) |];
      reflexivity.
Qed.

Lemma handleContinue_progression_witness :
  2 < length GuidedTour.stages - 1
  /\ GuidedTour.handleContinue GuidedTour.stages
       {| GuidedTour.currentStage := 2; GuidedTour.tourStarted := true |}
     = ({| GuidedTour.currentStage := 3; GuidedTour.tourStarted := true |}, [])
  /\ 4 = length GuidedTour.stages - 1
  /\ GuidedTour.handleContinue GuidedTour.stages
       {| GuidedTour.currentStage := 4; GuidedTour.tourStarted := true |}
     = ({| GuidedTour.currentStage := 4; GuidedTour.tourStarted := true |},
        [GuidedTour.onExitTour]).
Proof.
  split; [simpl; lia | split; [| split; [reflexivity |]]].
  - apply (proj1 handleContinue_progression GuidedTour.stages 2 true). simpl. lia.
  - apply (proj1 (proj2 handleContinue_progression) GuidedTour.stages 4 true).
    reflexivity.
Defined.

(** ** Which view the dashboard shows *)

Lemma activeView_tour_iff (s : Dashboard.State) :
  Dashboard.activeView s = Dashboard.TourView
  <-> Dashboard.showGuidedTour s = true /\ Dashboard.messages s = [].
Proof.
  unfold Dashboard.activeView.
  destruct (Dashboard.showGuidedTour s), (Dashboard.messages s); simpl;
    split; try tauto; try discriminate; intros [? ?]; discriminate.
Qed.

Lemma render_tour_iff (w : Dashboard.World) :
  is_Some (Dashboard.tour (Dashboard.render w))
  <-> Dashboard.activeView (Dashboard.ui w) = Dashboard.TourView.
Proof.
  unfold Dashboard.render.
  destruct (Dashboard.activeView (Dashboard.ui w)); simpl; split;
    try reflexivity; try discriminate; eauto.
  intros [? ?]; discriminate.
Qed.

Lemma render_ui (w : Dashboard.World) : Dashboard.ui (Dashboard.render w) = Dashboard.ui w.
Proof. unfold Dashboard.render. destruct (Dashboard.activeView _); reflexivity. Qed.

(** C2. A timeline with at least one message is never shown as the tour,
    whatever the tour flag and the tour's own stage are; the tour is the
    active view exactly while the tour flag is set and the timeline is
    empty, and the timeline is the active view in every other case.  After
    every event of a run, a guided tour is mounted exactly when the tour is
    the active view, so a mounted tour never coexists with a message. *)
Theorem view_mutual_exclusion :
  (forall s : Dashboard.State,
      length (Dashboard.messages s) > 0 ->
      Dashboard.activeView s = Dashboard.TimelineView)
  /\ (forall s : Dashboard.State,
      Dashboard.activeView s = Dashboard.TourView
      <-> Dashboard.showGuidedTour s = true /\ length (Dashboard.messages s) = 0)
  /\ (forall s : Dashboard.State,
      Dashboard.activeView s = Dashboard.TimelineView
      <-> ~ (Dashboard.showGuidedTour s = true /\ length (Dashboard.messages s) = 0))
  /\ (forall (w : Dashboard.World) (e : Dashboard.Event),
      let w' := Dashboard.step w e in
      (is_Some (Dashboard.tour w')
       <-> Dashboard.activeView (Dashboard.ui w') = Dashboard.TourView)
      /\ (length (Dashboard.messages (Dashboard.ui w')) > 0 ->
          Dashboard.tourState w' = Dashboard.Exited)).
Proof.
  assert (Hlen : forall s : Dashboard.State,
             length (Dashboard.messages s) = 0 <-> Dashboard.messages s = []).
  { intros s. destruct (Dashboard.messages s); simpl; split; congruence. }
  split; [| split; [| split]].
  - intros s Hpos.
    destruct (Dashboard.activeView s) eqn:Hv; [| reflexivity].
    apply activeView_tour_iff in Hv as [_ Hnil]. apply Hlen in Hnil. lia.
  - intros s. rewrite Hlen. apply activeView_tour_iff.
  - intros s. rewrite Hlen, <- activeView_tour_iff.
    destruct (Dashboard.activeView s); split; congruence.
  - intros w e w'. unfold w', Dashboard.step.
    split; [rewrite render_ui; apply render_tour_iff |].
    intros Hpos. rewrite render_ui in Hpos.
    unfold Dashboard.tourState.
    destruct (Dashboard.tour (Dashboard.render (Dashboard.dispatch e w))) eqn:Ht;
      [| reflexivity].
    assert (Hs : is_Some (Dashboard.tour (Dashboard.render (Dashboard.dispatch e w))))
      by (rewrite Ht; eauto).
    apply render_tour_iff, activeView_tour_iff in Hs as [_ Hnil].
    apply Hlen in Hnil. lia.
Qed.

Lemma view_mutual_exclusion_witness :
  let s := {| Dashboard.messages := [userMessage "Hello" "2025-01-01T00:00:00.000Z"];
              Dashboard.isLoading := true;
              Dashboard.sessionId := Some "f47ac10b";
              Dashboard.selectedModule := None;
              Dashboard.sidebarCollapsed := false;
              Dashboard.showGuidedTour := true |} in
  length (Dashboard.messages s) > 0
  /\ Dashboard.activeView s = Dashboard.TimelineView.
Proof.
  split; [simpl; lia |].
  apply (proj1 view_mutual_exclusion). simpl. lia.
Defined.

(** ** History load of the dashboard *)

(** C10. When the history fetch of the dashboard ends, the timeline is
    replaced by the fetched entries, in their order, and the tour flag is
    cleared, if the fetch succeeded with at least one entry; a fetch that
    succeeds with an empty list, with no list or with no payload, and a
    fetch that fails, leave every state cell of the component as it was. *)
Theorem loadHistory_only_nonempty (w : Dashboard.World) :
  (forall (msg : HistoryMessage) (rest : list HistoryMessage),
      let w' := Dashboard.loadHistory_settled
                  (HistoryResolved (Some {| h_messages := Some (msg :: rest) |})) w in
      Dashboard.messages (Dashboard.ui w') = map formatHistoryMessage (msg :: rest)
      /\ Dashboard.showGuidedTour (Dashboard.ui w') = false)
  /\ Dashboard.ui (Dashboard.loadHistory_settled
                     (HistoryResolved (Some {| h_messages := Some [] |})) w)
     = Dashboard.ui w
  /\ Dashboard.ui (Dashboard.loadHistory_settled
                     (HistoryResolved (Some {| h_messages := None |})) w)
     = Dashboard.ui w
  /\ Dashboard.ui (Dashboard.loadHistory_settled (HistoryResolved None) w)
     = Dashboard.ui w
  /\ Dashboard.ui (Dashboard.loadHistory_settled HistoryRejected w) = Dashboard.ui w
  /\ (forall o : HistoryOutcome,
      Dashboard.ui (Dashboard.loadHistory_settled o w) <> Dashboard.ui w ->
      exists msg rest, o = HistoryResolved (Some {| h_messages := Some (msg :: rest) |})).
Proof.
  repeat split; try reflexivity.
  intros o Hne.
  destruct o as [| [[[[| msg rest] |]] |]]; simpl in Hne; try (now contradiction Hne).
  eauto.
Qed.

Lemma loadHistory_only_nonempty_witness :
  let w := Dashboard.mount {[ session_key := "f47ac10b" ]} "unused" in
  let o := HistoryResolved (Some {| h_messages := Some [
             {| h_role := user; h_content := Some "Hello";
                h_timestamp := Some "2025-01-01T00:00:00.000Z";
                h_sources := None; h_visualization := None |}] |}) in
  Dashboard.ui (Dashboard.loadHistory_settled o w) <> Dashboard.ui w
  /\ exists msg rest, o = HistoryResolved (Some {| h_messages := Some (msg :: rest) |}).
Proof.
  intros w o.
  assert (Hne : Dashboard.ui (Dashboard.loadHistory_settled o w) <> Dashboard.ui w)
    by (vm_compute; discriminate).
  split; [exact Hne |].
  exact (proj2 (proj2 (proj2 (proj2 (proj2 (loadHistory_only_nonempty w))))) o Hne).
Defined.

(** ** The loading flag *)

Lemma dashboard_send_unfold (message now : string) (w : Dashboard.World) :
  JS.trim message <> "" ->
  Dashboard.handleSendMessage message now w
  = Dashboard.axios_post (Dashboard.chatRequest message (Dashboard.ui w))
      (Dashboard.handleSendMessage_before_post message now w).
Proof.
  intros H. apply truthy_trim_iff in H.
  unfold Dashboard.handleSendMessage. now rewrite H.
Qed.

Lemma dashboard_send_blank (message now : string) (w : Dashboard.World) :
  JS.trim message = "" -> Dashboard.handleSendMessage message now w = w.
Proof.
  intros H. apply blank_trim_iff in H.
  unfold Dashboard.handleSendMessage. now rewrite H.
Qed.

Lemma widget_send_unfold (message now : string) (w : ChatWidget.World) :
  JS.trim message <> "" ->
  ChatWidget.handleSendMessage message now w
  = ChatWidget.axios_post (ChatWidget.chatRequest message (ChatWidget.ui w))
      (ChatWidget.handleSendMessage_before_post message now w).
Proof.
  intros H. apply truthy_trim_iff in H.
  unfold ChatWidget.handleSendMessage. now rewrite H.
Qed.

Lemma widget_send_blank (message now : string) (w : ChatWidget.World) :
  JS.trim message = "" -> ChatWidget.handleSendMessage message now w = w.
Proof.
  intros H. apply blank_trim_iff in H.
  unfold ChatWidget.handleSendMessage. now rewrite H.
Qed.

Lemma dashboard_send_inv (message now : string) (w : Dashboard.World) :
  dashboard_idle_inv w -> dashboard_idle_inv (Dashboard.handleSendMessage message now w).
Proof.
  intros Hinv. unfold Dashboard.handleSendMessage.
  destruct (negb (JS.truthy (JS.trim message))); [exact Hinv |].
  intros Hp. discriminate Hp.
Qed.

Lemma widget_send_inv (message now : string) (w : ChatWidget.World) :
  widget_idle_inv w -> widget_idle_inv (ChatWidget.handleSendMessage message now w).
Proof.
  intros Hinv. unfold ChatWidget.handleSendMessage.
  destruct (negb (JS.truthy (JS.trim message))); [exact Hinv |].
  intros Hp. discriminate Hp.
Qed.

Lemma dashboard_settled_flag (o : Outcome) (now1 now2 : string) (w : Dashboard.World) :
  Dashboard.isLoading (Dashboard.ui (Dashboard.handleSendMessage_settled o now1 now2 w))
  = false.
Proof. destruct o as [| [data |]]; reflexivity. Qed.

Lemma widget_settled_flag (o : Outcome) (now : string) (w : ChatWidget.World) :
  ChatWidget.isLoading (ChatWidget.ui (ChatWidget.handleSendMessage_settled o now w))
  = false.
Proof. destruct o as [| [data |]]; reflexivity. Qed.

(** An update that touches neither the flag nor the in-flight count keeps
    the invariant. *)
Lemma dashboard_inv_frame (w w' : Dashboard.World) :
  Dashboard.isLoading (Dashboard.ui w') = Dashboard.isLoading (Dashboard.ui w) ->
  Dashboard.pending w' = Dashboard.pending w ->
  dashboard_idle_inv w -> dashboard_idle_inv w'.
Proof. unfold dashboard_idle_inv. intros -> ->. trivial. Qed.

Lemma dashboard_render_inv (w : Dashboard.World) :
  dashboard_idle_inv w -> dashboard_idle_inv (Dashboard.render w).
Proof.
  apply dashboard_inv_frame; unfold Dashboard.render;
    destruct (Dashboard.activeView _); reflexivity.
Qed.

Lemma dashboard_dispatch_inv (e : Dashboard.Event) (w : Dashboard.World) :
  dashboard_idle_inv w -> dashboard_idle_inv (Dashboard.dispatch e w).
Proof.
  intros Hinv. destruct e; simpl.
  - destruct (Dashboard.isLoading (Dashboard.ui w)); [exact Hinv |].
    revert Hinv. now apply dashboard_inv_frame.
  - unfold InputBox.handleSubmit.
    destruct (JS.truthy (JS.trim (InputBox.message (Dashboard.composer w)))
              && negb (Dashboard.isLoading (Dashboard.ui w))); simpl.
    + apply dashboard_send_inv. revert Hinv. now apply dashboard_inv_frame.
    + revert Hinv. now apply dashboard_inv_frame.
  - destruct (Dashboard.suggestion_rendered suggestion (Dashboard.ui w)); [| exact Hinv].
    now apply dashboard_send_inv.
  - unfold Sidebar.handleNavigation.
    repeat (match goal with |- context [String.eqb ?a ?b] => destruct (String.eqb a b) end);
      simpl; try exact Hinv; try (now apply dashboard_send_inv);
      revert Hinv; now apply dashboard_inv_frame.
  - revert Hinv. now apply dashboard_inv_frame.
  - revert Hinv. now apply dashboard_inv_frame.
  - unfold Dashboard.handleKeyboardShortcuts.
    destruct ((metaKey || ctrlKey) && String.eqb key "k"); [| exact Hinv].
    revert Hinv. now apply dashboard_inv_frame.
  - destruct (Dashboard.tour w) as [t |]; [| exact Hinv].
    assert (Hw : forall t', dashboard_idle_inv (Dashboard.with_tour (Some t') w))
      by (intros t'; revert Hinv; now apply dashboard_inv_frame).
    unfold GuidedTour.click.
    destruct (GuidedTour.rendered GuidedTour.stages a t); [| apply Hw].
    destruct a; simpl; try apply Hw.
    + unfold GuidedTour.handleContinue.
      destruct (GuidedTour.currentStage t <? _); simpl; [apply Hw |].
      generalize (Hw t). now apply dashboard_inv_frame.
    + unfold GuidedTour.handleDeepDive.
      destruct (GuidedTour.stages !! GuidedTour.currentStage t); simpl; [| apply Hw].
      apply dashboard_send_inv, Hw.
    + unfold GuidedTour.handleStageClick.
      destruct ((index <=? _) || (index =? _)); apply Hw.
  - destruct (Dashboard.pending w); [exact Hinv |].
    intros _. apply dashboard_settled_flag.
  - destruct (Dashboard.fetching w); [| exact Hinv].
    revert Hinv. apply dashboard_inv_frame;
      destruct o as [| [[[[| msg rest] |]] |]]; reflexivity.
Qed.

Lemma dashboard_run_inv (es : list Dashboard.Event) (w : Dashboard.World) :
  dashboard_idle_inv w -> dashboard_idle_inv (Dashboard.run es w).
Proof.
  revert w. induction es as [| e es IH]; intros w Hinv; [exact Hinv |].
  simpl. apply IH. unfold Dashboard.step.
  now apply dashboard_render_inv, dashboard_dispatch_inv.
Qed.

Lemma dashboard_mount_inv (storage : gmap string string) (uuid : string) :
  dashboard_idle_inv (Dashboard.mount storage uuid).
Proof.
  unfold Dashboard.mount. apply dashboard_render_inv.
  destruct (storage !! session_key) as [sid |]; [destruct (JS.truthy sid) |];
    intros _; reflexivity.
Qed.

Lemma widget_inv_frame (w w' : ChatWidget.World) :
  ChatWidget.isLoading (ChatWidget.ui w') = ChatWidget.isLoading (ChatWidget.ui w) ->
  ChatWidget.pending w' = ChatWidget.pending w ->
  widget_idle_inv w -> widget_idle_inv w'.
Proof. unfold widget_idle_inv. intros -> ->. trivial. Qed.

Lemma widget_step_inv (e : ChatWidget.Event) (w : ChatWidget.World) :
  widget_idle_inv w -> widget_idle_inv (ChatWidget.step w e).
Proof.
  intros Hinv. destruct e; simpl.
  - unfold InputBox.handleSubmit. simpl.
    destruct (JS.truthy (JS.trim text) && negb (ChatWidget.isLoading (ChatWidget.ui w)));
      simpl; [now apply widget_send_inv | exact Hinv].
  - destruct (ChatWidget.suggestion_rendered suggestion (ChatWidget.ui w)); [| exact Hinv].
    now apply widget_send_inv.
  - revert Hinv. now apply widget_inv_frame.
  - revert Hinv. now apply widget_inv_frame.
  - destruct (ChatWidget.pending w); [exact Hinv |].
    intros _. apply widget_settled_flag.
  - destruct (ChatWidget.fetching w); [| exact Hinv].
    revert Hinv. apply widget_inv_frame;
      destruct o as [| [[[l |]] |]]; reflexivity.
  - destruct answer; [| exact Hinv]. revert Hinv. now apply widget_inv_frame.
Qed.

Lemma widget_run_inv (es : list ChatWidget.Event) (w : ChatWidget.World) :
  widget_idle_inv w -> widget_idle_inv (ChatWidget.run es w).
Proof.
  revert w. induction es as [| e es IH]; intros w Hinv; [exact Hinv |].
  simpl. now apply IH, widget_step_inv.
Qed.

Lemma widget_mount_inv (storage : gmap string string) (uuid now : string) :
  widget_idle_inv (ChatWidget.mount storage uuid now).
Proof.
  unfold ChatWidget.mount.
  destruct (storage !! session_key) as [sid |]; [destruct (JS.truthy sid) |];
    intros _; reflexivity.
Qed.

(** C3. In both hosts a send raises the loading flag as it starts, and the
    part of the handler that runs when the request settles lowers it
    whatever the outcome: an answer, a rejected request, or an exception
    thrown while the answer is read.  In every state a host reaches from
    its mount in which no chat request is in flight, the flag is down, so
    it is down before a send and down again once the send has completed. *)
Theorem loading_flag_released :
  (forall (message now : string) (w : Dashboard.World),
      JS.trim message <> "" ->
      Dashboard.isLoading (Dashboard.ui (Dashboard.handleSendMessage message now w)) = true)
  /\ (forall (o : Outcome) (now1 now2 : string) (w : Dashboard.World),
      Dashboard.isLoading
        (Dashboard.ui (Dashboard.handleSendMessage_settled o now1 now2 w)) = false)
  /\ (forall (storage : gmap string string) (uuid : string) (es : list Dashboard.Event),
      let w := Dashboard.run es (Dashboard.mount storage uuid) in
      Dashboard.pending w = 0 -> Dashboard.isLoading (Dashboard.ui w) = false)
  /\ (forall (message now : string) (w : ChatWidget.World),
      JS.trim message <> "" ->
      ChatWidget.isLoading (ChatWidget.ui (ChatWidget.handleSendMessage message now w)) = true)
  /\ (forall (o : Outcome) (now : string) (w : ChatWidget.World),
      ChatWidget.isLoading
        (ChatWidget.ui (ChatWidget.handleSendMessage_settled o now w)) = false)
  /\ (forall (storage : gmap string string) (uuid now : string) (es : list ChatWidget.Event),
      let w := ChatWidget.run es (ChatWidget.mount storage uuid now) in
      ChatWidget.pending w = 0 -> ChatWidget.isLoading (ChatWidget.ui w) = false).
Proof.
  split; [| split; [| split; [| split; [| split]]]].
  - intros message now w H. now rewrite dashboard_send_unfold.
  - apply dashboard_settled_flag.
  - intros storage uuid es. apply dashboard_run_inv, dashboard_mount_inv.
  - intros message now w H. now rewrite widget_send_unfold.
  - apply widget_settled_flag.
  - intros storage uuid now es. apply widget_run_inv, widget_mount_inv.
Qed.

Lemma loading_flag_released_witness :
  JS.trim "Hello" <> ""
  /\ Dashboard.isLoading
       (Dashboard.ui (Dashboard.handleSendMessage "Hello" "2025-01-01T00:00:00.000Z"
                        (Dashboard.mount ∅ "f47ac10b"))) = true
  /\ (let w := Dashboard.run
                 [Dashboard.SidebarNavigation "api" "unused" "2025-01-01T00:00:00.000Z";
                  Dashboard.ChatSettled Rejected "2025-01-01T00:00:01.000Z"
                    "2025-01-01T00:00:01.001Z"]
                 (Dashboard.mount ∅ "f47ac10b") in
      Dashboard.pending w = 0 /\ Dashboard.isLoading (Dashboard.ui w) = false).
Proof.
  assert (Hne : JS.trim "Hello" <> "") by (vm_compute; discriminate).
  split; [exact Hne | split].
  - exact (proj1 loading_flag_released "Hello" "2025-01-01T00:00:00.000Z"
             (Dashboard.mount ∅ "f47ac10b") Hne).
  - assert (Hp : Dashboard.pending
                   (Dashboard.run
                      [Dashboard.SidebarNavigation "api" "unused" "2025-01-01T00:00:00.000Z";
                       Dashboard.ChatSettled Rejected "2025-01-01T00:00:01.000Z"
                         "2025-01-01T00:00:01.001Z"]
                      (Dashboard.mount ∅ "f47ac10b")) = 0) by reflexivity.
    split; [exact Hp |].
    exact (proj1 (proj2 (proj2 loading_flag_released)) ∅ "f47ac10b" _ Hp).
Defined.

(** ** The send path of the dashboard *)

Lemma dashboard_before_post_messages (message now : string) (w : Dashboard.World) :
  Dashboard.messages (Dashboard.ui (Dashboard.handleSendMessage_before_post message now w))
  = Dashboard.messages (Dashboard.ui w) ++ [userMessage message now].
Proof. reflexivity. Qed.

Lemma dashboard_settled_messages (o : Outcome) (now1 now2 : string) (w : Dashboard.World) :
  Dashboard.messages (Dashboard.ui (Dashboard.handleSendMessage_settled o now1 now2 w))
  = Dashboard.messages (Dashboard.ui w)
    ++ [match o with
        | Resolved (Some data) => botMessage data
        | Resolved None | Rejected => Dashboard.errorMessage now1 now2
        end].
Proof. destruct o as [| [data |]]; reflexivity. Qed.

Lemma dashboard_exchange_messages (x : Dashboard.Exchange) (w : Dashboard.World) :
  JS.trim (Dashboard.x_text x) <> "" ->
  Dashboard.messages (Dashboard.ui (Dashboard.exchange w x))
  = Dashboard.messages (Dashboard.ui w)
    ++ [userMessage (Dashboard.x_text x) (Dashboard.x_now x); Dashboard.terminalMessage x].
Proof.
  intros H. unfold Dashboard.exchange.
  rewrite dashboard_settled_messages, dashboard_send_unfold by exact H.
  simpl. rewrite <- app_assoc. reflexivity.
Qed.

Lemma dashboard_exchanges_messages (xs : list Dashboard.Exchange) (w : Dashboard.World) :
  Forall (fun x => JS.trim (Dashboard.x_text x) <> "") xs ->
  Dashboard.messages (Dashboard.ui (Dashboard.exchanges xs w))
  = Dashboard.messages (Dashboard.ui w)
    ++ flat_map (fun x => [userMessage (Dashboard.x_text x) (Dashboard.x_now x);
                           Dashboard.terminalMessage x]) xs.
Proof.
  intros Hall. revert w.
  induction Hall as [| x xs Hx Hxs IH]; intros w; simpl.
  - now rewrite app_nil_r.
  - unfold Dashboard.exchanges in *. simpl. rewrite IH.
    rewrite dashboard_exchange_messages by exact Hx.
    rewrite <- app_assoc. reflexivity.
Qed.

Lemma terminalMessage_role (x : Dashboard.Exchange) :
  role (Dashboard.terminalMessage x) = assistant.
Proof.
  unfold Dashboard.terminalMessage. destruct (Dashboard.x_outcome x) as [| [data |]];
    reflexivity.
Qed.

(** C1, as the claim words it: every text that is not the empty string
    gets a user message appended.  It fails at the text made of one space,
    which is not empty and is dropped by the guard on the trimmed text. *)
Lemma send_not_empty_text_counterexample :
  ~ (forall (message now : string) (w : Dashboard.World),
        message <> "" ->
        Dashboard.messages (Dashboard.ui (Dashboard.handleSendMessage message now w))
        = Dashboard.messages (Dashboard.ui w) ++ [userMessage message now]).
Proof.
  intros H.
  specialize (H " " "2025-01-01T00:00:00.000Z" (Dashboard.initial_world ∅)).
  assert (Hne : " " <> "") by discriminate.
  specialize (H Hne). discriminate H.
Qed.

(** C1, amended.  A text whose trimmed form is empty changes nothing.  For
    every other text the user message is on the timeline before the
    request leaves, and one request leaves; when the request settles, one
    assistant message is appended, flagged as an error exactly when no
    payload was received.  After [N] sends of such texts, each settled
    before the next is submitted, the timeline is the earlier timeline,
    untouched, followed by [2N] entries that alternate user and assistant
    in send order. *)
Theorem send_pairing_sequential :
  (forall (message now : string) (w : Dashboard.World),
      JS.trim message = "" -> Dashboard.handleSendMessage message now w = w)
  /\ (forall (message now : string) (w : Dashboard.World),
      JS.trim message <> "" ->
      let w1 := Dashboard.handleSendMessage_before_post message now w in
      Dashboard.messages (Dashboard.ui w1)
      = Dashboard.messages (Dashboard.ui w) ++ [userMessage message now]
      /\ Dashboard.posted w1 = Dashboard.posted w
      /\ Dashboard.pending w1 = Dashboard.pending w
      /\ Dashboard.handleSendMessage message now w
         = Dashboard.axios_post (Dashboard.chatRequest message (Dashboard.ui w)) w1
      /\ Dashboard.messages (Dashboard.ui (Dashboard.handleSendMessage message now w))
         = Dashboard.messages (Dashboard.ui w) ++ [userMessage message now]
      /\ Dashboard.posted (Dashboard.handleSendMessage message now w)
         = Dashboard.posted w ++ [Dashboard.chatRequest message (Dashboard.ui w)])
  /\ (forall (o : Outcome) (now1 now2 : string) (w : Dashboard.World),
      exists t : Message,
        Dashboard.messages (Dashboard.ui (Dashboard.handleSendMessage_settled o now1 now2 w))
        = Dashboard.messages (Dashboard.ui w) ++ [t]
        /\ role t = assistant
        /\ isError t = match o with
                       | Resolved (Some _) => false
                       | Resolved None | Rejected => true
                       end)
  /\ (forall (xs : list Dashboard.Exchange) (w : Dashboard.World),
      Forall (fun x => JS.trim (Dashboard.x_text x) <> "") xs ->
      let appended :=
        flat_map (fun x => [userMessage (Dashboard.x_text x) (Dashboard.x_now x);
                            Dashboard.terminalMessage x]) xs in
      Dashboard.messages (Dashboard.ui (Dashboard.exchanges xs w))
      = Dashboard.messages (Dashboard.ui w) ++ appended
      /\ length appended = 2 * length xs
      /\ map role appended = flat_map (fun _ => [user; assistant]) xs).
Proof.
  split; [| split; [| split]].
  - apply dashboard_send_blank.
  - intros message now w H w1.
    rewrite dashboard_send_unfold by exact H. repeat split; reflexivity.
  - intros o now1 now2 w. eexists. rewrite dashboard_settled_messages.
    split; [reflexivity |]. destruct o as [| [data |]]; split; reflexivity.
  - intros xs w Hall appended. split; [now apply dashboard_exchanges_messages |].
    unfold appended. clear. induction xs as [| x xs [IHlen IHrole]]; [split; reflexivity |].
    simpl. rewrite IHlen, IHrole, terminalMessage_role. split; [lia | reflexivity].
Qed.

Lemma send_pairing_sequential_witness :
  let xs := [ {| Dashboard.x_text := "Hello";
                 Dashboard.x_now := "2025-01-01T00:00:00.000Z";
                 Dashboard.x_outcome :=
                   Resolved (Some {| resp_response := Some "Hi";
                                     resp_timestamp := Some "2025-01-01T00:00:01.000Z";
                                     resp_sources := None;
                                     resp_visualization := None;
                                     resp_suggestions := None |});
                 Dashboard.x_now1 := "";
                 Dashboard.x_now2 := "" |};
              {| Dashboard.x_text := "  What is RADP? ";
                 Dashboard.x_now := "2025-01-01T00:00:02.000Z";
                 Dashboard.x_outcome := Rejected;
                 Dashboard.x_now1 := "2025-01-01T00:00:03.000Z";
                 Dashboard.x_now2 := "2025-01-01T00:00:03.001Z" |} ] in
  Forall (fun x => JS.trim (Dashboard.x_text x) <> "") xs
  /\ map role (Dashboard.messages
                 (Dashboard.ui (Dashboard.exchanges xs (Dashboard.mount ∅ "f47ac10b"))))
     = [user; assistant; user; assistant].
Proof.
  intros xs.
  assert (Hall : Forall (fun x => JS.trim (Dashboard.x_text x) <> "") xs).
  { repeat constructor; vm_compute; discriminate. }
  split; [exact Hall |].
  destruct (proj2 (proj2 (proj2 send_pairing_sequential)) xs
              (Dashboard.mount ∅ "f47ac10b") Hall) as (Hm & _ & Hr).
  rewrite Hm, map_app, Hr. reflexivity.
Defined.

(** ** Failed sends *)

(** C7, as the claim words it: every failure, a malformed answer included,
    appends an error message with one and the same body.  In the dashboard
    two rejected requests settled at different clock readings append
    different bodies, and an answer whose payload lacks every field is
    appended as an ordinary assistant message without the error flag. *)
Lemma send_failure_same_body_counterexample :
  let w := Dashboard.initial_world ∅ in
  let first := Dashboard.handleSendMessage_settled Rejected
                 "2025-01-01T00:00:00.000Z" "2025-01-01T00:00:00.000Z" w in
  let second := Dashboard.handleSendMessage_settled Rejected
                  "2025-01-01T00:00:09.000Z" "2025-01-01T00:00:09.000Z" w in
  let malformed := Dashboard.handleSendMessage_settled
                     (Resolved (Some {| resp_response := None; resp_timestamp := None;
                                        resp_sources := None; resp_visualization := None;
                                        resp_suggestions := None |}))
                     "2025-01-01T00:00:00.000Z" "2025-01-01T00:00:00.000Z" w in
  (content <$> last (Dashboard.messages (Dashboard.ui first)))
  <> (content <$> last (Dashboard.messages (Dashboard.ui second)))
  /\ (isError <$> last (Dashboard.messages (Dashboard.ui malformed))) = Some false.
Proof. split; [vm_compute; discriminate | reflexivity]. Qed.

(** C7, amended.  A send whose request is rejected, or whose answer has no
    payload to read, appends one assistant message flagged as an error.  In
    the dashboard its body is the fixed remediation script (check the
    connection, retry, rephrase, start a new conversation, contact support)
    followed by the clock reading taken while the body is built, and its
    timestamp is the clock reading taken next; the body depends on nothing
    else.  In the chat widget the body is one fixed sentence and the
    timestamp is the clock reading of the failure.  An answer with a
    payload, whatever fields it lacks, is appended as a plain assistant
    message. *)
Theorem send_failure_message :
  (forall (o : Outcome) (now1 now2 : string) (w : Dashboard.World),
      o = Rejected \/ o = Resolved None ->
      Dashboard.messages (Dashboard.ui (Dashboard.handleSendMessage_settled o now1 now2 w))
      = Dashboard.messages (Dashboard.ui w) ++ [Dashboard.errorMessage now1 now2])
  /\ (forall now1 now2 : string,
      role (Dashboard.errorMessage now1 now2) = assistant
      /\ isError (Dashboard.errorMessage now1 now2) = true
      /\ content (Dashboard.errorMessage now1 now2)
         = Some (Dashboard.errorScript +:+ now1 +:+ "*")
      /\ timestamp (Dashboard.errorMessage now1 now2) = Some now2)
  /\ (is_Some (String.index 0 "Check your internet connection" Dashboard.errorScript)
      /\ is_Some (String.index 0 "Retry your request" Dashboard.errorScript)
      /\ is_Some (String.index 0 "Try rephrasing your question" Dashboard.errorScript)
      /\ is_Some (String.index 0 "Start a new conversation" Dashboard.errorScript)
      /\ is_Some (String.index 0 "contact technical support" Dashboard.errorScript))
  /\ (forall (data : ChatResponse) (now1 now2 : string) (w : Dashboard.World),
      Dashboard.messages
        (Dashboard.ui (Dashboard.handleSendMessage_settled (Resolved (Some data)) now1 now2 w))
      = Dashboard.messages (Dashboard.ui w) ++ [botMessage data]
      /\ isError (botMessage data) = false)
  /\ (forall (o : Outcome) (now : string) (w : ChatWidget.World),
      o = Rejected \/ o = Resolved None ->
      ChatWidget.messages (ChatWidget.ui (ChatWidget.handleSendMessage_settled o now w))
      = ChatWidget.messages (ChatWidget.ui w) ++ [ChatWidget.errorMessage now])
  /\ (forall now : string,
      role (ChatWidget.errorMessage now) = assistant
      /\ isError (ChatWidget.errorMessage now) = true
      /\ content (ChatWidget.errorMessage now)
         = Some "An error occurred processing your request. Please try again or contact support if the issue persists."
      /\ timestamp (ChatWidget.errorMessage now) = Some now).
Proof.
  split; [| split; [| split; [| split; [| split]]]].
  - intros o now1 now2 w [-> | ->]; reflexivity.
  - intros now1 now2. repeat split.
  - repeat split; vm_compute; eauto.
  - intros data now1 now2 w. split; reflexivity.
  - intros o now w [-> | ->]; reflexivity.
  - intros now. repeat split.
Qed.

Lemma send_failure_message_witness :
  (Rejected = Rejected \/ Rejected = Resolved None)
  /\ map isError
       (Dashboard.messages
          (Dashboard.ui
             (Dashboard.handleSendMessage_settled Rejected "2025-01-01T00:00:00.000Z"
                "2025-01-01T00:00:00.001Z"
                (Dashboard.handleSendMessage "Hello" "2025-01-01T00:00:00.000Z"
                   (Dashboard.mount ∅ "f47ac10b")))))
     = [false; true].
Proof.
  assert (H : Rejected = Rejected \/ Rejected = Resolved None) by (left; reflexivity).
  split; [exact H |].
  rewrite (proj1 send_failure_message Rejected _ _ _ H). reflexivity.
Defined.

(** ** Mode changes of the chat widget *)

(** C8. A mode change appends one system message and nothing else to the
    timeline, sends nothing, and leaves the session, the stored token and
    the selected module alone; the earlier messages stay where they were.
    A send builds its request from the mode, module and session of the
    state it runs in, so the first send after the change carries the new
    mode, and the messages that were there before the change are still the
    head of the timeline after it.  The dashboard has no mode to change:
    its requests carry the fixed mode [general_qa] with the module and
    session of the state the send runs in. *)
Theorem mode_change_frame (newMode now : string) (w : ChatWidget.World) :
  let w' := ChatWidget.handleModeChange newMode now w in
  ChatWidget.messages (ChatWidget.ui w')
  = ChatWidget.messages (ChatWidget.ui w) ++ [ChatWidget.modeChangeMsg newMode now]
  /\ role (ChatWidget.modeChangeMsg newMode now) = system
  /\ ChatWidget.sessionId (ChatWidget.ui w') = ChatWidget.sessionId (ChatWidget.ui w)
  /\ ChatWidget.selectedModule (ChatWidget.ui w')
     = ChatWidget.selectedModule (ChatWidget.ui w)
  /\ ChatWidget.localStorage w' = ChatWidget.localStorage w
  /\ ChatWidget.posted w' = ChatWidget.posted w
  /\ ChatWidget.pending w' = ChatWidget.pending w
  /\ ChatWidget.mode (ChatWidget.ui w') = newMode
  /\ (forall (v : ChatWidget.World) (message now' : string),
      JS.trim message <> "" ->
      ChatWidget.posted (ChatWidget.handleSendMessage message now' v)
      = ChatWidget.posted v
        ++ [{| req_message := message;
               req_session_id := ChatWidget.sessionId (ChatWidget.ui v);
               req_mode := ChatWidget.mode (ChatWidget.ui v);
               req_module := ChatWidget.selectedModule (ChatWidget.ui v) |}])
  /\ (forall message now' : string,
      JS.trim message <> "" ->
      let w'' := ChatWidget.handleSendMessage message now' w' in
      ChatWidget.posted w''
      = ChatWidget.posted w
        ++ [{| req_message := message;
               req_session_id := ChatWidget.sessionId (ChatWidget.ui w);
               req_mode := newMode;
               req_module := ChatWidget.selectedModule (ChatWidget.ui w) |}]
      /\ ChatWidget.messages (ChatWidget.ui w'')
         = ChatWidget.messages (ChatWidget.ui w)
           ++ [ChatWidget.modeChangeMsg newMode now; userMessage message now'])
  /\ (forall (v : Dashboard.World) (message now' : string),
      JS.trim message <> "" ->
      Dashboard.posted (Dashboard.handleSendMessage message now' v)
      = Dashboard.posted v
        ++ [{| req_message := message;
               req_session_id := Dashboard.sessionId (Dashboard.ui v);
               req_mode := "general_qa";
               req_module := Dashboard.selectedModule (Dashboard.ui v) |}]).
Proof.
  intros w'. repeat split.
  - intros v message now' H. now rewrite widget_send_unfold.
  - rewrite widget_send_unfold by assumption. reflexivity.
  - rewrite widget_send_unfold by assumption. simpl.
    now rewrite <- app_assoc.
  - intros v message now' H. now rewrite dashboard_send_unfold.
Qed.

Lemma mode_change_frame_witness :
  let w := ChatWidget.run
             [ChatWidget.ComposerSubmit "Hello" "2025-01-01T00:00:01.000Z";
              ChatWidget.ChatSettled Rejected "2025-01-01T00:00:02.000Z"]
             (ChatWidget.mount ∅ "f47ac10b" "2025-01-01T00:00:00.000Z") in
  let w' := ChatWidget.handleModeChange "module_deep_dive" "2025-01-01T00:00:03.000Z" w in
  JS.trim "Next" <> ""
  /\ map req_mode
       (ChatWidget.posted (ChatWidget.handleSendMessage "Next" "2025-01-01T00:00:04.000Z" w'))
     = ["full_overview"; "module_deep_dive"]
  /\ content <$> last (ChatWidget.messages (ChatWidget.ui w'))
     = Some (Some "Mode changed to: module deep_dive").
Proof.
  intros w w'.
  assert (Hne : JS.trim "Next" <> "") by (vm_compute; discriminate).
  split; [exact Hne | split].
  - destruct (mode_change_frame "module_deep_dive" "2025-01-01T00:00:03.000Z" w)
      as (_ & _ & _ & _ & _ & _ & _ & _ & _ & Hnext & _).
    destruct (Hnext "Next" "2025-01-01T00:00:04.000Z" Hne) as [Hposted _].
    fold w' in Hposted. rewrite Hposted. reflexivity.
  - reflexivity.
Defined.

(** ** Session reset *)

(** C9, as the claim words it: the reset leaves an empty timeline.  In the
    chat widget the reset of any state ends with the welcome message on the
    timeline. *)
Lemma new_conversation_empty_counterexample :
  ~ (forall (uuid now : string) (w : ChatWidget.World),
        ChatWidget.messages (ChatWidget.ui (ChatWidget.handleNewConversation uuid now w))
        = []).
Proof.
  intros H.
  specialize (H "f47ac10b" "2025-01-01T00:00:00.000Z" (ChatWidget.initial_world ∅)).
  discriminate H.
Qed.

Lemma dashboard_new_conversation_view (uuid : string) (w : Dashboard.World) :
  Dashboard.activeView (Dashboard.ui (Dashboard.handleNewConversation uuid w))
  = Dashboard.TourView.
Proof. reflexivity. Qed.

(** A tour that is on screen when the reset happens stays mounted, so it
    keeps the stage it was at: the reset only writes the tour flag and the
    timeline, and both already had the values that show the tour. *)
Lemma new_conversation_keeps_mounted_tour
  (uuid : string) (w : Dashboard.World) (t : GuidedTour.State) :
  Dashboard.tour w = Some t ->
  Dashboard.tour (Dashboard.step w (Dashboard.SidebarNewConversation uuid)) = Some t.
Proof.
  intros Ht. unfold Dashboard.step, Dashboard.render. simpl Dashboard.dispatch.
  rewrite dashboard_new_conversation_view. simpl. now rewrite Ht.
Qed.

Example new_conversation_mid_tour :
  Dashboard.tourState
    (Dashboard.run
       [Dashboard.TourClick GuidedTour.StartTour "2025-01-01T00:00:00.000Z";
        Dashboard.TourClick GuidedTour.Continue "2025-01-01T00:00:01.000Z";
        Dashboard.TourClick GuidedTour.Continue "2025-01-01T00:00:02.000Z";
        Dashboard.SidebarNavigation "guided-tour" "0b5e2d6c" "2025-01-01T00:00:03.000Z"]
       (Dashboard.mount ∅ "f47ac10b"))
  = Dashboard.StageAt 2.
Proof. reflexivity. Qed.

(** C9, amended.  The reset, from any state and through each of its
    entries (the sidebar button, the sidebar home and tour entries, the key
    chord with the meta or the control key), makes the generated token the
    session, stores it under [docbot_session_id] without touching another
    key, and replaces the timeline.  In the dashboard the timeline becomes
    empty and the tour flag is set, so the tour is the active view, and a
    tour that was not on screen comes back not started.  In the chat
    widget the timeline becomes the welcome message alone. *)
Theorem new_conversation_reset :
  (forall (uuid : string) (w : Dashboard.World),
      let w' := Dashboard.handleNewConversation uuid w in
      Dashboard.sessionId (Dashboard.ui w') = Some uuid
      /\ Dashboard.localStorage w' = <[session_key := uuid]> (Dashboard.localStorage w)
      /\ Dashboard.localStorage w' !! session_key = Some uuid
      /\ (forall key : string, key <> session_key ->
          Dashboard.localStorage w' !! key = Dashboard.localStorage w !! key)
      /\ Dashboard.messages (Dashboard.ui w') = []
      /\ Dashboard.showGuidedTour (Dashboard.ui w') = true
      /\ Dashboard.activeView (Dashboard.ui w') = Dashboard.TourView
      /\ (Dashboard.tour w = None ->
          Dashboard.tourState (Dashboard.render w') = Dashboard.NotStarted))
  /\ (forall (uuid now : string) (w : Dashboard.World),
      Dashboard.dispatch (Dashboard.SidebarNewConversation uuid) w
      = Dashboard.handleNewConversation uuid w
      /\ Dashboard.dispatch (Dashboard.SidebarNavigation "home" uuid now) w
         = Dashboard.handleNewConversation uuid w
      /\ Dashboard.dispatch (Dashboard.SidebarNavigation "guided-tour" uuid now) w
         = Dashboard.handleNewConversation uuid w
      /\ Dashboard.dispatch (Dashboard.KeyDown true false "k" uuid) w
         = Dashboard.handleNewConversation uuid w
      /\ Dashboard.dispatch (Dashboard.KeyDown false true "k" uuid) w
         = Dashboard.handleNewConversation uuid w
      /\ Dashboard.dispatch (Dashboard.KeyDown true true "k" uuid) w
         = Dashboard.handleNewConversation uuid w)
  /\ (forall (uuid now : string) (w : ChatWidget.World),
      let w' := ChatWidget.handleNewConversation uuid now w in
      ChatWidget.sessionId (ChatWidget.ui w') = Some uuid
      /\ ChatWidget.localStorage w' = <[session_key := uuid]> (ChatWidget.localStorage w)
      /\ ChatWidget.localStorage w' !! session_key = Some uuid
      /\ (forall key : string, key <> session_key ->
          ChatWidget.localStorage w' !! key = ChatWidget.localStorage w !! key)
      /\ ChatWidget.messages (ChatWidget.ui w') = [ChatWidget.welcomeMsg now]
      /\ ChatWidget.showWelcome (ChatWidget.ui w') = true).
Proof.
  split; [| split].
  - intros uuid w w'. subst w'. repeat split.
    + simpl. apply lookup_insert_eq.
    + intros key Hkey. simpl. now apply lookup_insert_ne.
    + intros Ht. unfold Dashboard.tourState, Dashboard.render.
      rewrite dashboard_new_conversation_view. simpl. now rewrite Ht.
  - intros uuid now w. repeat split.
  - intros uuid now w w'. repeat split.
    + simpl. apply lookup_insert_eq.
    + intros key Hkey. simpl. now apply lookup_insert_ne.
Qed.

Lemma new_conversation_reset_witness :
  let w := Dashboard.run
             [Dashboard.SidebarNavigation "api" "unused" "2025-01-01T00:00:00.000Z";
              Dashboard.ChatSettled Rejected "2025-01-01T00:00:01.000Z"
                "2025-01-01T00:00:01.001Z"]
             (Dashboard.mount {[ "maveric_theme" := "dark" ]} "f47ac10b") in
  Dashboard.tour w = None
  /\ Dashboard.tourState (Dashboard.render (Dashboard.handleNewConversation "0b5e2d6c" w))
     = Dashboard.NotStarted
  /\ "maveric_theme" <> session_key
  /\ Dashboard.localStorage (Dashboard.handleNewConversation "0b5e2d6c" w) !! "maveric_theme"
     = Dashboard.localStorage w !! "maveric_theme".
Proof.
  intros w.
  assert (Ht : Dashboard.tour w = None) by reflexivity.
  assert (Hk : "maveric_theme" <> session_key) by discriminate.
  destruct (proj1 new_conversation_reset "0b5e2d6c" w)
    as (_ & _ & _ & Hother & _ & _ & _ & Htour).
  split; [exact Ht | split; [exact (Htour Ht) | split; [exact Hk | exact (Hother _ Hk)]]].
Defined.

(** ** Sends while a request is in flight *)

Lemma with_composer_same (w : Dashboard.World) :
  Dashboard.with_composer (Dashboard.composer w) w = w.
Proof. destruct w; reflexivity. Qed.

(** The composer is gated: while the loading flag is up a submit does
    nothing. *)
Lemma composer_submit_gated (now : string) (w : Dashboard.World) :
  Dashboard.isLoading (Dashboard.ui w) = true ->
  Dashboard.dispatch (Dashboard.ComposerSubmit now) w = w.
Proof.
  intros Hl. simpl. unfold InputBox.handleSubmit. rewrite Hl, andb_false_r.
  simpl. apply with_composer_same.
Qed.

(** C4, on the code.  With the first request still in flight and the
    loading flag up, the sidebar entry sends a second request, and so does a
    suggestion button of an earlier answer; the two user messages then sit
    next to each other on the timeline, and the answers follow behind
    them. *)
Theorem send_while_loading_not_gated :
  let answer := fun text =>
    Resolved (Some {| resp_response := Some text;
                      resp_timestamp := Some "2025-01-01T00:00:09.000Z";
                      resp_sources := None;
                      resp_visualization := None;
                      resp_suggestions := Some ["Tell me more"] |}) in
  let w0 := Dashboard.mount ∅ "f47ac10b" in
  let w1 := Dashboard.step w0
              (Dashboard.SidebarNavigation "api" "unused" "2025-01-01T00:00:00.000Z") in
  let w2 := Dashboard.step w1
              (Dashboard.SidebarNavigation "quickstart" "unused" "2025-01-01T00:00:01.000Z") in
  let w3 := Dashboard.run
              [Dashboard.ChatSettled (answer "first") "" "";
               Dashboard.ChatSettled (answer "second") "" ""] w2 in
  let w4 := Dashboard.step w3
              (Dashboard.SidebarNavigation "api" "unused" "2025-01-01T00:00:10.000Z") in
  let w5 := Dashboard.step w4
              (Dashboard.SuggestionClick "Tell me more" "2025-01-01T00:00:11.000Z") in
  (Dashboard.isLoading (Dashboard.ui w1) = true /\ Dashboard.pending w1 = 1)
  /\ (Dashboard.pending w2 = 2 /\ length (Dashboard.posted w2) = 2)
  /\ map role (Dashboard.messages (Dashboard.ui w3)) = [user; user; assistant; assistant]
  /\ (Dashboard.isLoading (Dashboard.ui w4) = true /\ Dashboard.pending w4 = 1)
  /\ (Dashboard.pending w5 = 2 /\ length (Dashboard.posted w5) = 4).
Proof. repeat split. Qed.

(** * Further properties of the components *)

(** ** The shape of a dispatch *)

Lemma dispatch_dispatched (e : Dashboard.Event) (w : Dashboard.World) :
  dispatched e w (Dashboard.dispatch e w).
Proof.
  destruct e; simpl.
  - destruct (Dashboard.isLoading (Dashboard.ui w)); constructor.
  - unfold InputBox.handleSubmit.
    destruct (JS.truthy (JS.trim (InputBox.message (Dashboard.composer w)))) eqn:Ht;
      destruct (Dashboard.isLoading (Dashboard.ui w)) eqn:Hl; simpl;
      try apply disp_composer.
    apply disp_submit; [exact Hl | now apply truthy_trim_iff].
  - destruct (Dashboard.suggestion_rendered suggestion (Dashboard.ui w));
      [now apply disp_send | constructor].
  - unfold Sidebar.handleNavigation.
    destruct (String.eqb section "home") eqn:H1;
      [apply disp_reset; simpl; now rewrite H1 |].
    destruct (String.eqb section "guided-tour") eqn:H2;
      [apply disp_reset; simpl; now rewrite H1, H2 |].
    destruct (String.eqb section "ask-now") eqn:H3; [constructor |].
    destruct (String.eqb section "api") eqn:H4;
      [apply disp_send; simpl; now rewrite ?H1, ?H2, ?H4 |].
    destruct (String.eqb section "quickstart") eqn:H5;
      [apply disp_send; simpl; now rewrite ?H1, ?H2, ?H4, ?H5 |].
    constructor.
  - now apply disp_reset.
  - apply disp_toggle.
  - unfold Dashboard.handleKeyboardShortcuts.
    destruct ((metaKey || ctrlKey) && String.eqb key "k") eqn:Hk;
      [now apply disp_reset | constructor].
  - destruct (Dashboard.tour w) as [t |] eqn:Ht; [| constructor].
    unfold GuidedTour.click.
    destruct (GuidedTour.rendered GuidedTour.stages a t) eqn:Hr; [| apply disp_tour].
    destruct a; simpl; try apply disp_tour.
    + unfold GuidedTour.handleContinue.
      destruct (GuidedTour.currentStage t <? _); [apply disp_tour | apply disp_exit].
    + unfold GuidedTour.handleDeepDive.
      destruct (GuidedTour.stages !! GuidedTour.currentStage t) as [stage |] eqn:Hs;
        [| apply disp_tour].
      simpl. now apply (disp_deep_dive now t stage).
    + apply disp_exit.
    + unfold GuidedTour.handleStageClick.
      destruct ((index <=? _) || (index =? _)); apply disp_tour.
  - destruct (Dashboard.pending w) eqn:Hp; [constructor |].
    apply disp_settled. now rewrite Hp.
  - destruct (Dashboard.fetching w); [apply disp_history | constructor].
Qed.

Lemma render_frame (w : Dashboard.World) :
  Dashboard.ui (Dashboard.render w) = Dashboard.ui w
  /\ Dashboard.localStorage (Dashboard.render w) = Dashboard.localStorage w
  /\ Dashboard.posted (Dashboard.render w) = Dashboard.posted w
  /\ Dashboard.pending (Dashboard.render w) = Dashboard.pending w
  /\ Dashboard.fetching (Dashboard.render w) = Dashboard.fetching w.
Proof. unfold Dashboard.render. destruct (Dashboard.activeView _); repeat split. Qed.

(** What a send leaves alone, whether or not its guard lets it through. *)
Lemma dashboard_send_frame (message now : string) (w : Dashboard.World) :
  let w' := Dashboard.handleSendMessage message now w in
  Dashboard.sessionId (Dashboard.ui w') = Dashboard.sessionId (Dashboard.ui w)
  /\ Dashboard.selectedModule (Dashboard.ui w') = Dashboard.selectedModule (Dashboard.ui w)
  /\ Dashboard.localStorage w' = Dashboard.localStorage w
  /\ Dashboard.tour w' = Dashboard.tour w
  /\ Dashboard.fetching w' = Dashboard.fetching w.
Proof.
  unfold Dashboard.handleSendMessage.
  destruct (negb (JS.truthy (JS.trim message))); repeat split.
Qed.

Lemma dashboard_history_frame (o : HistoryOutcome) (w : Dashboard.World) :
  let w' := Dashboard.loadHistory_settled o w in
  Dashboard.sessionId (Dashboard.ui w') = Dashboard.sessionId (Dashboard.ui w)
  /\ Dashboard.selectedModule (Dashboard.ui w') = Dashboard.selectedModule (Dashboard.ui w)
  /\ Dashboard.isLoading (Dashboard.ui w') = Dashboard.isLoading (Dashboard.ui w)
  /\ Dashboard.localStorage w' = Dashboard.localStorage w
  /\ Dashboard.posted w' = Dashboard.posted w
  /\ Dashboard.pending w' = Dashboard.pending w.
Proof. destruct o as [| [[[[| msg rest] |]] |]]; repeat split. Qed.

Lemma dashboard_settled_frame (o : Outcome) (now1 now2 : string) (w : Dashboard.World) :
  let w' := Dashboard.handleSendMessage_settled o now1 now2 w in
  Dashboard.sessionId (Dashboard.ui w') = Dashboard.sessionId (Dashboard.ui w)
  /\ Dashboard.selectedModule (Dashboard.ui w') = Dashboard.selectedModule (Dashboard.ui w)
  /\ Dashboard.showGuidedTour (Dashboard.ui w') = Dashboard.showGuidedTour (Dashboard.ui w)
  /\ Dashboard.localStorage w' = Dashboard.localStorage w
  /\ Dashboard.posted w' = Dashboard.posted w
  /\ Dashboard.pending w' = Nat.pred (Dashboard.pending w).
Proof. destruct o as [| [data |]]; repeat split. Qed.

(** ** The session token *)

Lemma dashboard_session_dispatched (e : Dashboard.Event) (w w' : Dashboard.World) :
  dispatched e w w' -> dashboard_session_inv w -> dashboard_session_inv w'.
Proof.
  intros Hd (token & Hs & Hl).
  destruct Hd; try (exists token; split; assumption).
  - destruct (dashboard_send_frame (InputBox.message (Dashboard.composer w)) now
                (Dashboard.with_composer
                   {| InputBox.message := "";
                      InputBox.isFocused := InputBox.isFocused (Dashboard.composer w) |} w))
      as (Hs' & _ & Hl' & _).
    exists token. now rewrite Hs', Hl'.
  - destruct (dashboard_send_frame message now w) as (Hs' & _ & Hl' & _).
    exists token. now rewrite Hs', Hl'.
  - destruct (dashboard_send_frame (GuidedTour.deepDivePrompt stage) now
                (Dashboard.with_tour (Some t) w)) as (Hs' & _ & Hl' & _).
    exists token. now rewrite Hs', Hl'.
  - exists uuid. split; [reflexivity | simpl; apply lookup_insert_eq].
  - destruct (dashboard_settled_frame o now1 now2 w) as (Hs' & _ & _ & Hl' & _).
    exists token. now rewrite Hs', Hl'.
  - destruct (dashboard_history_frame o w) as (Hs' & _ & _ & Hl' & _).
    exists token. now rewrite Hs', Hl'.
Qed.

Lemma dashboard_session_step (e : Dashboard.Event) (w : Dashboard.World) :
  dashboard_session_inv w -> dashboard_session_inv (Dashboard.step w e).
Proof.
  intros H. unfold Dashboard.step.
  apply (dashboard_session_dispatched e w _ (dispatch_dispatched e w)) in H.
  destruct H as (token & Hs & Hl). exists token.
  destruct (render_frame (Dashboard.dispatch e w)) as (-> & -> & _). now split.
Qed.

Lemma dashboard_mount_resume (storage : gmap string string) (uuid token : string) :
  storage !! session_key = Some token -> token <> "" ->
  Dashboard.ui (Dashboard.mount storage uuid)
  = Dashboard.ui (Dashboard.setSessionId token (Dashboard.initial_world storage))
  /\ Dashboard.localStorage (Dashboard.mount storage uuid) = storage
  /\ Dashboard.fetching (Dashboard.mount storage uuid) = Some token.
Proof.
  intros Hl Hne. unfold Dashboard.mount. rewrite Hl.
  destruct token; [contradiction |]. repeat split.
Qed.

Lemma dashboard_mount_fresh (storage : gmap string string) (uuid : string) :
  storage !! session_key = None \/ storage !! session_key = Some "" ->
  Dashboard.ui (Dashboard.mount storage uuid)
  = Dashboard.ui (Dashboard.setSessionId uuid (Dashboard.initial_world storage))
  /\ Dashboard.localStorage (Dashboard.mount storage uuid) = <[session_key := uuid]> storage
  /\ Dashboard.fetching (Dashboard.mount storage uuid) = None.
Proof.
  intros [Hl | Hl]; unfold Dashboard.mount; rewrite Hl; repeat split.
Qed.

Lemma dashboard_mount_session (storage : gmap string string) (uuid : string) :
  dashboard_session_inv (Dashboard.mount storage uuid).
Proof.
  destruct (storage !! session_key) as [[| c token] |] eqn:Hl.
  - destruct (dashboard_mount_fresh storage uuid) as (Hu & Hs & _); [now right |].
    exists uuid. rewrite Hu, Hs. split; [reflexivity | apply lookup_insert_eq].
  - destruct (dashboard_mount_resume storage uuid (String c token) Hl) as (Hu & Hs & _);
      [discriminate |].
    exists (String c token). rewrite Hu, Hs. now split.
  - destruct (dashboard_mount_fresh storage uuid) as (Hu & Hs & _); [now left |].
    exists uuid. rewrite Hu, Hs. split; [reflexivity | apply lookup_insert_eq].
Qed.

Lemma widget_session_step (e : ChatWidget.Event) (w : ChatWidget.World) :
  widget_session_inv w -> widget_session_inv (ChatWidget.step w e).
Proof.
  intros (token & Hs & Hl). destruct e; simpl.
  - unfold InputBox.handleSubmit. simpl.
    destruct (JS.truthy (JS.trim text) && negb (ChatWidget.isLoading (ChatWidget.ui w)));
      simpl; [| now exists token].
    unfold ChatWidget.handleSendMessage.
    destruct (negb (JS.truthy (JS.trim text))); now exists token.
  - destruct (ChatWidget.suggestion_rendered suggestion (ChatWidget.ui w));
      [| now exists token].
    unfold ChatWidget.handleSuggestionClick, ChatWidget.handleSendMessage.
    destruct (negb (JS.truthy (JS.trim suggestion))); now exists token.
  - now exists token.
  - exists uuid. split; [reflexivity | simpl; apply lookup_insert_eq].
  - destruct (ChatWidget.pending w); [now exists token |].
    destruct o as [| [data |]]; now exists token.
  - destruct (ChatWidget.fetching w); [| now exists token].
    destruct o as [| [[[l |]] |]]; now exists token.
  - destruct answer; now exists token.
Qed.

Lemma widget_mount_session (storage : gmap string string) (uuid now : string) :
  widget_session_inv (ChatWidget.mount storage uuid now).
Proof.
  unfold ChatWidget.mount.
  destruct (storage !! session_key) as [[| c token] |] eqn:Hl; simpl.
  - exists uuid. split; [reflexivity | simpl; apply lookup_insert_eq].
  - exists (String c token). now split.
  - exists uuid. split; [reflexivity | simpl; apply lookup_insert_eq].
Qed.

(** X1. A mounted host always has a session, and it is the token in the
    store under [docbot_session_id]: at mount and after every run of
    events, in the dashboard and in the chat widget.  A dashboard mounted
    on a stored non-empty token resumes it, leaves the store alone and
    fetches the history of that token; mounted on no token, or on an empty
    one, it takes the generated token, stores it and fetches nothing. *)
Theorem session_matches_store :
  (forall (storage : gmap string string) (uuid : string) (es : list Dashboard.Event),
      dashboard_session_inv (Dashboard.run es (Dashboard.mount storage uuid)))
  /\ (forall (storage : gmap string string) (uuid now : string) (es : list ChatWidget.Event),
      widget_session_inv (ChatWidget.run es (ChatWidget.mount storage uuid now)))
  /\ (forall (storage : gmap string string) (uuid token : string),
      storage !! session_key = Some token -> token <> "" ->
      let w := Dashboard.mount storage uuid in
      Dashboard.sessionId (Dashboard.ui w) = Some token
      /\ Dashboard.localStorage w = storage
      /\ Dashboard.fetching w = Some token)
  /\ (forall (storage : gmap string string) (uuid : string),
      storage !! session_key = None \/ storage !! session_key = Some "" ->
      let w := Dashboard.mount storage uuid in
      Dashboard.sessionId (Dashboard.ui w) = Some uuid
      /\ Dashboard.localStorage w = <[session_key := uuid]> storage
      /\ Dashboard.fetching w = None).
Proof.
  split; [| split; [| split]].
  - intros storage uuid es. generalize (dashboard_mount_session storage uuid).
    generalize (Dashboard.mount storage uuid).
    induction es as [| e es IH]; intros w Hw; [exact Hw |].
    simpl. now apply IH, dashboard_session_step.
  - intros storage uuid now es. generalize (widget_mount_session storage uuid now).
    generalize (ChatWidget.mount storage uuid now).
    induction es as [| e es IH]; intros w Hw; [exact Hw |].
    simpl. now apply IH, widget_session_step.
  - intros storage uuid token Hl Hne w.
    destruct (dashboard_mount_resume storage uuid token Hl Hne) as (Hu & Hs & Hf).
    unfold w. now rewrite Hu, Hs, Hf.
  - intros storage uuid Hl w.
    destruct (dashboard_mount_fresh storage uuid Hl) as (Hu & Hs & Hf).
    unfold w. now rewrite Hu, Hs, Hf.
Qed.

Lemma session_matches_store_witness :
  let storage : gmap string string := {[ session_key := "f47ac10b" ]} in
  storage !! session_key = Some "f47ac10b"
  /\ "f47ac10b" <> ""
  /\ Dashboard.fetching (Dashboard.mount storage "0b5e2d6c") = Some "f47ac10b"
  /\ ((∅ : gmap string string) !! session_key = None
      \/ (∅ : gmap string string) !! session_key = Some "")
  /\ Dashboard.sessionId (Dashboard.ui (Dashboard.mount ∅ "0b5e2d6c")) = Some "0b5e2d6c".
Proof.
  intros storage.
  assert (Hl : storage !! session_key = Some "f47ac10b") by reflexivity.
  assert (Hne : "f47ac10b" <> "") by discriminate.
  assert (He : (∅ : gmap string string) !! session_key = None
               \/ (∅ : gmap string string) !! session_key = Some "")
    by (left; reflexivity).
  destruct session_matches_store as (_ & _ & Hres & Hfresh).
  split; [exact Hl | split; [exact Hne | split; [| split; [exact He |]]]].
  - exact (proj2 (proj2 (Hres storage "0b5e2d6c" "f47ac10b" Hl Hne))).
  - exact (proj1 (Hfresh ∅ "0b5e2d6c" He)).
Defined.

Lemma dashboard_store_dispatched (e : Dashboard.Event) (w w' : Dashboard.World) :
  dispatched e w w' ->
  (is_reset e = false ->
   Dashboard.sessionId (Dashboard.ui w') = Dashboard.sessionId (Dashboard.ui w)
   /\ Dashboard.localStorage w' = Dashboard.localStorage w)
  /\ (forall key : string, key <> session_key ->
      Dashboard.localStorage w' !! key = Dashboard.localStorage w !! key).
Proof.
  intros Hd. destruct Hd; try (split; [intros _; split |]; reflexivity).
  - destruct (dashboard_send_frame (InputBox.message (Dashboard.composer w)) now
                (Dashboard.with_composer
                   {| InputBox.message := "";
                      InputBox.isFocused := InputBox.isFocused (Dashboard.composer w) |} w))
      as (Hs' & _ & Hl' & _).
    rewrite Hs', Hl'. repeat split.
  - destruct (dashboard_send_frame message now w) as (Hs' & _ & Hl' & _).
    rewrite Hs', Hl'. repeat split.
  - destruct (dashboard_send_frame (GuidedTour.deepDivePrompt stage) now
                (Dashboard.with_tour (Some t) w)) as (Hs' & _ & Hl' & _).
    rewrite Hs', Hl'. repeat split.
  - split; [intros Hn; congruence |].
    intros key Hkey. simpl. now apply lookup_insert_ne.
  - destruct (dashboard_settled_frame o now1 now2 w) as (Hs' & _ & _ & Hl' & _).
    rewrite Hs', Hl'. repeat split.
  - destruct (dashboard_history_frame o w) as (Hs' & _ & _ & Hl' & _).
    rewrite Hs', Hl'. repeat split.
Qed.

Lemma widget_store_step (e : ChatWidget.Event) (w : ChatWidget.World) :
  ((forall uuid now : string, e <> ChatWidget.NewConversation uuid now) ->
   ChatWidget.sessionId (ChatWidget.ui (ChatWidget.step w e))
   = ChatWidget.sessionId (ChatWidget.ui w)
   /\ ChatWidget.localStorage (ChatWidget.step w e) = ChatWidget.localStorage w)
  /\ (forall key : string, key <> session_key ->
      ChatWidget.localStorage (ChatWidget.step w e) !! key
      = ChatWidget.localStorage w !! key).
Proof.
  destruct e; simpl.
  - unfold InputBox.handleSubmit. simpl.
    destruct (JS.truthy (JS.trim text) && negb (ChatWidget.isLoading (ChatWidget.ui w)));
      simpl; [| repeat split].
    unfold ChatWidget.handleSendMessage.
    destruct (negb (JS.truthy (JS.trim text))); repeat split.
  - destruct (ChatWidget.suggestion_rendered suggestion (ChatWidget.ui w)); [| repeat split].
    unfold ChatWidget.handleSuggestionClick, ChatWidget.handleSendMessage.
    destruct (negb (JS.truthy (JS.trim suggestion))); repeat split.
  - repeat split.
  - split; [intros Hn; now contradiction (Hn uuid now) |].
    intros key Hkey. now apply lookup_insert_ne.
  - destruct (ChatWidget.pending w); [repeat split |].
    destruct o as [| [data |]]; repeat split.
  - destruct (ChatWidget.fetching w); [| repeat split].
    destruct o as [| [[[l |]] |]]; repeat split.
  - destruct answer; repeat split.
Qed.

(** X2. Only a reset changes the session: every other dashboard event
    (a send, a settled request, a history load, a tour click, typing)
    leaves the session and the whole store as they were, and so does every
    chat widget event but the new conversation.  No event of either host
    ever writes a store key other than [docbot_session_id], so after any
    run the other keys, the theme preference among them, hold what they
    held at mount. *)
Theorem session_changes_only_on_reset :
  (forall (w : Dashboard.World) (e : Dashboard.Event),
      is_reset e = false ->
      Dashboard.sessionId (Dashboard.ui (Dashboard.step w e))
      = Dashboard.sessionId (Dashboard.ui w)
      /\ Dashboard.localStorage (Dashboard.step w e) = Dashboard.localStorage w)
  /\ (forall (w : ChatWidget.World) (e : ChatWidget.Event),
      (forall uuid now : string, e <> ChatWidget.NewConversation uuid now) ->
      ChatWidget.sessionId (ChatWidget.ui (ChatWidget.step w e))
      = ChatWidget.sessionId (ChatWidget.ui w)
      /\ ChatWidget.localStorage (ChatWidget.step w e) = ChatWidget.localStorage w)
  /\ (forall (storage : gmap string string) (uuid : string) (es : list Dashboard.Event)
             (key : string),
      key <> session_key ->
      Dashboard.localStorage (Dashboard.run es (Dashboard.mount storage uuid)) !! key
      = storage !! key)
  /\ (forall (storage : gmap string string) (uuid now : string)
             (es : list ChatWidget.Event) (key : string),
      key <> session_key ->
      ChatWidget.localStorage (ChatWidget.run es (ChatWidget.mount storage uuid now)) !! key
      = storage !! key).
Proof.
  split; [| split; [| split]].
  - intros w e He. unfold Dashboard.step.
    destruct (render_frame (Dashboard.dispatch e w)) as (-> & -> & _).
    now apply (dashboard_store_dispatched e w _ (dispatch_dispatched e w)).
  - intros w e He. now apply widget_store_step.
  - intros storage uuid es key Hkey.
    assert (Hm : Dashboard.localStorage (Dashboard.mount storage uuid) !! key
                 = storage !! key).
    { unfold Dashboard.mount.
      destruct (render_frame
                  (match storage !! session_key with
                   | Some storedSessionId =>
                       if JS.truthy storedSessionId
                       then (Dashboard.setSessionId storedSessionId
                             >> Dashboard.loadHistory storedSessionId)
                              (Dashboard.initial_world storage)
                       else (Dashboard.setSessionId uuid
                             >> Dashboard.setItem session_key uuid)
                              (Dashboard.initial_world storage)
                   | None => (Dashboard.setSessionId uuid
                              >> Dashboard.setItem session_key uuid)
                               (Dashboard.initial_world storage)
                   end)) as (_ & -> & _).
      destruct (storage !! session_key) as [sid |]; [destruct (JS.truthy sid) |];
        simpl; try reflexivity; now apply lookup_insert_ne. }
    revert Hm. generalize (Dashboard.mount storage uuid).
    induction es as [| e es IH]; intros w Hw; [exact Hw |].
    simpl. apply IH. rewrite <- Hw. unfold Dashboard.step.
    destruct (render_frame (Dashboard.dispatch e w)) as (_ & -> & _).
    now apply (dashboard_store_dispatched e w _ (dispatch_dispatched e w)).
  - intros storage uuid now es key Hkey.
    assert (Hm : ChatWidget.localStorage (ChatWidget.mount storage uuid now) !! key
                 = storage !! key).
    { unfold ChatWidget.mount.
      destruct (storage !! session_key) as [sid |]; [destruct (JS.truthy sid) |];
        simpl; try reflexivity; now apply lookup_insert_ne. }
    revert Hm. generalize (ChatWidget.mount storage uuid now).
    induction es as [| e es IH]; intros w Hw; [exact Hw |].
    simpl. apply IH. rewrite <- Hw. now apply widget_store_step.
Qed.

Lemma session_changes_only_on_reset_witness :
  let w := Dashboard.mount {[ "maveric_theme" := "dark" ]} "f47ac10b" in
  let e := Dashboard.SidebarNavigation "quickstart" "0b5e2d6c" "2025-01-01T00:00:00.000Z" in
  is_reset e = false
  /\ Dashboard.sessionId (Dashboard.ui (Dashboard.step w e)) = Some "f47ac10b"
  /\ "maveric_theme" <> session_key
  /\ Dashboard.localStorage
       (Dashboard.run [e; Dashboard.KeyDown true false "k" "0b5e2d6c"]
          (Dashboard.mount {[ "maveric_theme" := "dark" ]} "f47ac10b")) !! "maveric_theme"
     = Some "dark".
Proof.
  intros w e.
  assert (He : is_reset e = false) by reflexivity.
  assert (Hk : "maveric_theme" <> session_key) by discriminate.
  destruct session_changes_only_on_reset as (Hstep & _ & Hkeys & _).
  split; [exact He | split; [| split; [exact Hk |]]].
  - rewrite (proj1 (Hstep w e He)). reflexivity.
  - rewrite (Hkeys _ _ _ _ Hk). reflexivity.
Defined.

(** ** What the dashboard sends *)

Lemma dashboard_send_requests (message now : string) (w : Dashboard.World) :
  dashboard_requests_inv w ->
  dashboard_requests_inv (Dashboard.handleSendMessage message now w).
Proof.
  intros (Hs & Hm & Hall). unfold Dashboard.handleSendMessage.
  destruct (JS.truthy (JS.trim message)) eqn:Ht; simpl; [| now repeat split].
  repeat split; try assumption.
  apply Forall_app. split; [exact Hall |].
  constructor; [| constructor].
  repeat split; simpl; [now apply truthy_trim_iff | exact Hs | exact Hm].
Qed.

Lemma dashboard_requests_dispatched (e : Dashboard.Event) (w w' : Dashboard.World) :
  dispatched e w w' -> dashboard_requests_inv w -> dashboard_requests_inv w'.
Proof.
  intros Hd Hinv.
  destruct Hd; try exact Hinv; try (now apply dashboard_send_requests).
  - destruct Hinv as (Hs & Hm & Hall). repeat split; simpl; eauto.
  - destruct Hinv as (Hs & Hm & Hall).
    destruct (dashboard_settled_frame o now1 now2 w) as (Hs' & Hm' & _ & _ & Hp' & _).
    unfold dashboard_requests_inv. now rewrite Hs', Hm', Hp'.
  - destruct Hinv as (Hs & Hm & Hall).
    destruct (dashboard_history_frame o w) as (Hs' & Hm' & _ & _ & Hp' & _).
    unfold dashboard_requests_inv. now rewrite Hs', Hm', Hp'.
Qed.

Lemma dashboard_mount_requests (storage : gmap string string) (uuid : string) :
  dashboard_requests_inv (Dashboard.mount storage uuid).
Proof.
  unfold Dashboard.mount, dashboard_requests_inv.
  destruct (storage !! session_key) as [sid |]; [destruct (JS.truthy sid) |];
    simpl; repeat split; eauto.
Qed.

(** X3. Every chat request the dashboard ever sends, whichever control
    triggered it, carries a text that is not blank, a session token, the
    mode [general_qa] and no module (nothing in the dashboard ever selects
    one). *)
Theorem dashboard_requests_well_formed
  (storage : gmap string string) (uuid : string) (es : list Dashboard.Event) :
  Forall well_formed_request (Dashboard.posted (Dashboard.run es (Dashboard.mount storage uuid)))
  /\ Dashboard.selectedModule (Dashboard.ui (Dashboard.run es (Dashboard.mount storage uuid)))
     = None.
Proof.
  cut (dashboard_requests_inv (Dashboard.run es (Dashboard.mount storage uuid))).
  { intros (_ & Hm & Hall). now split. }
  generalize (dashboard_mount_requests storage uuid).
  generalize (Dashboard.mount storage uuid).
  induction es as [| e es IH]; intros w Hw; [exact Hw |].
  simpl. apply IH. unfold Dashboard.step.
  apply (dashboard_requests_dispatched e w _ (dispatch_dispatched e w)) in Hw.
  destruct Hw as (Hs & Hm & Hall). unfold dashboard_requests_inv.
  destruct (render_frame (Dashboard.dispatch e w)) as (-> & _ & -> & _). now repeat split.
Qed.

(** ** One request at a time through the composer *)

Lemma single_flight_dispatched (e : Dashboard.Event) (w w' : Dashboard.World) :
  dispatched e w w' -> sends_ungated e = false -> single_flight w -> single_flight w'.
Proof.
  intros Hd He Hinv.
  destruct Hd; try exact Hinv; try discriminate He; try congruence.
  - destruct Hinv as [[Hp Hl] | [Hp Hl]]; [| congruence].
    rewrite dashboard_send_unfold by assumption.
    right. simpl. now rewrite Hp.
  - destruct (dashboard_settled_frame o now1 now2 w) as (_ & _ & _ & _ & _ & Hp').
    destruct Hinv as [[Hp Hl] | [Hp Hl]]; [congruence |].
    left. rewrite Hp', Hp. split; [reflexivity | apply dashboard_settled_flag].
  - destruct (dashboard_history_frame o w) as (_ & _ & Hl' & _ & _ & Hp').
    unfold single_flight. now rewrite Hl', Hp'.
Qed.

Lemma single_flight_mount (storage : gmap string string) (uuid : string) :
  single_flight (Dashboard.mount storage uuid).
Proof.
  unfold Dashboard.mount, single_flight.
  destruct (render_frame
              (match storage !! session_key with
               | Some storedSessionId =>
                   if JS.truthy storedSessionId
                   then (Dashboard.setSessionId storedSessionId
                         >> Dashboard.loadHistory storedSessionId)
                          (Dashboard.initial_world storage)
                   else (Dashboard.setSessionId uuid
                         >> Dashboard.setItem session_key uuid)
                          (Dashboard.initial_world storage)
               | None => (Dashboard.setSessionId uuid
                          >> Dashboard.setItem session_key uuid)
                           (Dashboard.initial_world storage)
               end)) as (-> & _ & _ & -> & _).
  left. destruct (storage !! session_key) as [sid |]; [destruct (JS.truthy sid) |];
    now split.
Qed.

(** X4. As long as sends come from the composer only (no suggestion click,
    no sidebar API or quick-start entry, no tour deep dive), the dashboard
    never has more than one chat request in flight, and its loading flag is
    up exactly while that request is out; resets, history loads, tour
    navigation and typing in between do not break this. *)
Theorem composer_sends_single_flight
  (storage : gmap string string) (uuid : string) (es : list Dashboard.Event) :
  Forall (fun e => sends_ungated e = false) es ->
  let w := Dashboard.run es (Dashboard.mount storage uuid) in
  Dashboard.pending w <= 1
  /\ (Dashboard.isLoading (Dashboard.ui w) = true <-> Dashboard.pending w = 1).
Proof.
  intros Hall w.
  cut (single_flight w).
  { intros [[Hp Hl] | [Hp Hl]]; rewrite Hp, Hl; split; try lia; split; congruence. }
  unfold w. clear w. generalize (single_flight_mount storage uuid).
  generalize (Dashboard.mount storage uuid).
  induction Hall as [| e es He Hes IH]; intros w Hw; [exact Hw |].
  simpl. apply IH. unfold Dashboard.step.
  apply (single_flight_dispatched e w _ (dispatch_dispatched e w) He) in Hw.
  unfold single_flight in *.
  destruct (render_frame (Dashboard.dispatch e w)) as (-> & _ & _ & -> & _). exact Hw.
Qed.

Lemma composer_sends_single_flight_witness :
  let es := [Dashboard.ComposerChange "Hello";
             Dashboard.ComposerSubmit "2025-01-01T00:00:00.000Z";
             Dashboard.ComposerChange "ignored while loading";
             Dashboard.ComposerSubmit "2025-01-01T00:00:01.000Z";
             Dashboard.KeyDown false true "k" "0b5e2d6c";
             Dashboard.ComposerSubmit "2025-01-01T00:00:02.000Z"] in
  Forall (fun e => sends_ungated e = false) es
  /\ Dashboard.pending (Dashboard.run es (Dashboard.mount ∅ "f47ac10b")) <= 1.
Proof.
  intros es.
  assert (Hall : Forall (fun e => sends_ungated e = false) es)
    by (repeat constructor).
  split; [exact Hall |].
  exact (proj1 (composer_sends_single_flight ∅ "f47ac10b" es Hall)).
Defined.

(** ** The timeline only grows between resets *)

Lemma dashboard_send_grows (message now : string) (w : Dashboard.World) :
  Dashboard.messages (Dashboard.ui w)
    `prefix_of` Dashboard.messages (Dashboard.ui (Dashboard.handleSendMessage message now w))
  /\ length (Dashboard.messages (Dashboard.ui (Dashboard.handleSendMessage message now w)))
     <= S (length (Dashboard.messages (Dashboard.ui w))).
Proof.
  unfold Dashboard.handleSendMessage.
  destruct (negb (JS.truthy (JS.trim message))); simpl.
  - split; [reflexivity | lia].
  - split; [now apply prefix_app_r | rewrite length_app; simpl; lia].
Qed.

Lemma timeline_grows_dispatched (e : Dashboard.Event) (w w' : Dashboard.World) :
  dispatched e w w' -> is_reset e = false -> is_history e = false ->
  Dashboard.messages (Dashboard.ui w) `prefix_of` Dashboard.messages (Dashboard.ui w')
  /\ length (Dashboard.messages (Dashboard.ui w'))
     <= S (length (Dashboard.messages (Dashboard.ui w))).
Proof.
  intros Hd Hr Hh.
  destruct Hd; try (split; [reflexivity | simpl; lia]); try congruence;
    try discriminate Hh.
  - apply (dashboard_send_grows _ now
             (Dashboard.with_composer
                {| InputBox.message := "";
                   InputBox.isFocused := InputBox.isFocused (Dashboard.composer w) |} w)).
  - apply dashboard_send_grows.
  - apply (dashboard_send_grows _ now (Dashboard.with_tour (Some t) w)).
  - rewrite dashboard_settled_messages.
    split; [now apply prefix_app_r | rewrite length_app; simpl; lia].
Qed.

(** X5. Between resets and history loads the dashboard timeline is
    append-only: every other event keeps the messages that were there, in
    their order, as the head of the timeline, and adds at most one
    message. *)
Theorem timeline_append_only (w : Dashboard.World) (e : Dashboard.Event) :
  is_reset e = false -> is_history e = false ->
  Dashboard.messages (Dashboard.ui w)
    `prefix_of` Dashboard.messages (Dashboard.ui (Dashboard.step w e))
  /\ length (Dashboard.messages (Dashboard.ui (Dashboard.step w e)))
     <= S (length (Dashboard.messages (Dashboard.ui w))).
Proof.
  intros Hr Hh. unfold Dashboard.step.
  destruct (render_frame (Dashboard.dispatch e w)) as (-> & _).
  now apply (timeline_grows_dispatched e w _ (dispatch_dispatched e w)).
Qed.

Lemma timeline_append_only_witness :
  let w := Dashboard.run
             [Dashboard.SidebarNavigation "api" "unused" "2025-01-01T00:00:00.000Z"]
             (Dashboard.mount ∅ "f47ac10b") in
  let e := Dashboard.ChatSettled Rejected "2025-01-01T00:00:01.000Z"
             "2025-01-01T00:00:01.001Z" in
  is_reset e = false /\ is_history e = false
  /\ Dashboard.messages (Dashboard.ui w)
       `prefix_of` Dashboard.messages (Dashboard.ui (Dashboard.step w e)).
Proof.
  intros w e.
  assert (Hr : is_reset e = false) by reflexivity.
  assert (Hh : is_history e = false) by reflexivity.
  split; [exact Hr | split; [exact Hh |]].
  exact (proj1 (timeline_append_only w e Hr Hh)).
Defined.

(** ** A dismissed tour *)

Lemma tour_flag_dispatched (e : Dashboard.Event) (w w' : Dashboard.World) :
  dispatched e w w' -> is_reset e = false ->
  Dashboard.showGuidedTour (Dashboard.ui w) = false ->
  Dashboard.showGuidedTour (Dashboard.ui w') = false.
Proof.
  intros Hd Hr Hs.
  destruct Hd; try exact Hs; try reflexivity; try congruence.
  - unfold Dashboard.handleSendMessage.
    destruct (negb (JS.truthy (JS.trim _))); [exact Hs | reflexivity].
  - unfold Dashboard.handleSendMessage.
    destruct (negb (JS.truthy (JS.trim _))); [exact Hs | reflexivity].
  - unfold Dashboard.handleSendMessage.
    destruct (negb (JS.truthy (JS.trim _))); [exact Hs | reflexivity].
  - destruct (dashboard_settled_frame o now1 now2 w) as (_ & _ & Hs' & _).
    now rewrite Hs'.
  - destruct o as [| [[[[| msg rest] |]] |]]; try exact Hs; reflexivity.
Qed.

Lemma hidden_flag_no_tour (w : Dashboard.World) :
  Dashboard.showGuidedTour (Dashboard.ui w) = false ->
  Dashboard.tour (Dashboard.render w) = None.
Proof.
  intros Hs. unfold Dashboard.render, Dashboard.activeView. now rewrite Hs.
Qed.

(** X6. Once the tour flag is down (the user asked a question, finished
    the tour, sent a message, or a history was restored), no event other
    than a reset brings the guided tour back: after any run without a
    reset the tour is still hidden. *)
Theorem dismissed_tour_stays_hidden (w : Dashboard.World) (es : list Dashboard.Event) :
  Dashboard.showGuidedTour (Dashboard.ui w) = false ->
  Dashboard.tour w = None ->
  Forall (fun e => is_reset e = false) es ->
  Dashboard.showGuidedTour (Dashboard.ui (Dashboard.run es w)) = false
  /\ Dashboard.tourState (Dashboard.run es w) = Dashboard.Exited.
Proof.
  intros Hs Ht Hall. revert w Hs Ht.
  induction Hall as [| e es He Hes IH]; intros w Hs Ht.
  - split; [exact Hs |]. unfold Dashboard.tourState. simpl. now rewrite Ht.
  - simpl. assert (Hs' : Dashboard.showGuidedTour (Dashboard.ui (Dashboard.dispatch e w)) = false)
      by now apply (tour_flag_dispatched e w _ (dispatch_dispatched e w)).
    apply IH; unfold Dashboard.step.
    + destruct (render_frame (Dashboard.dispatch e w)) as (-> & _). exact Hs'.
    + now apply hidden_flag_no_tour.
Qed.

Lemma dismissed_tour_stays_hidden_witness :
  let w := Dashboard.run [Dashboard.TourClick GuidedTour.AskQuestion ""]
             (Dashboard.mount ∅ "f47ac10b") in
  let es := [Dashboard.ComposerChange "   ";
             Dashboard.ComposerSubmit "2025-01-01T00:00:00.000Z";
             Dashboard.TourClick GuidedTour.StartTour "";
             Dashboard.SidebarNavigation "ask-now" "unused" ""] in
  Dashboard.showGuidedTour (Dashboard.ui w) = false
  /\ Dashboard.tour w = None
  /\ Forall (fun e => is_reset e = false) es
  /\ Dashboard.tourState (Dashboard.run es w) = Dashboard.Exited
  /\ Dashboard.messages (Dashboard.ui (Dashboard.run es w)) = [].
Proof.
  intros w es.
  assert (Hs : Dashboard.showGuidedTour (Dashboard.ui w) = false) by reflexivity.
  assert (Ht : Dashboard.tour w = None) by reflexivity.
  assert (Hall : Forall (fun e => is_reset e = false) es) by (repeat constructor).
  split; [exact Hs | split; [exact Ht | split; [exact Hall | split]]].
  - exact (proj2 (dismissed_tour_stays_hidden w es Hs Ht Hall)).
  - reflexivity.
Defined.

(** ** A reset while a request is out *)

(** X7. A reset does not cancel a request in flight, nor lower the loading
    flag: when the old request settles after the reset, its answer (or its
    error message) becomes the first and only entry of the new session's
    timeline, and the tour the reset had brought back is hidden again. *)
Theorem stale_answer_lands_after_reset
  (w : Dashboard.World) (uuid : string) (o : Outcome) (now1 now2 : string) :
  Dashboard.pending w <> 0 ->
  let w1 := Dashboard.step w (Dashboard.SidebarNewConversation uuid) in
  let w2 := Dashboard.step w1 (Dashboard.ChatSettled o now1 now2) in
  (Dashboard.pending w1 = Dashboard.pending w
   /\ Dashboard.isLoading (Dashboard.ui w1) = Dashboard.isLoading (Dashboard.ui w)
   /\ Dashboard.messages (Dashboard.ui w1) = []
   /\ is_Some (Dashboard.tour w1))
  /\ Dashboard.sessionId (Dashboard.ui w2) = Some uuid
  /\ Dashboard.messages (Dashboard.ui w2)
     = [match o with
        | Resolved (Some data) => botMessage data
        | Resolved None | Rejected => Dashboard.errorMessage now1 now2
        end]
  /\ Dashboard.tourState w2 = Dashboard.Exited.
Proof.
  intros Hp w1 w2.
  assert (H1 : Dashboard.ui w1 = Dashboard.ui (Dashboard.handleNewConversation uuid w)
               /\ Dashboard.pending w1 = Dashboard.pending w).
  { unfold w1, Dashboard.step.
    destruct (render_frame (Dashboard.dispatch (Dashboard.SidebarNewConversation uuid) w))
      as (-> & _ & _ & -> & _). now split. }
  destruct H1 as [Hu1 Hp1].
  split; [split; [exact Hp1 | split; [now rewrite Hu1 | split; [now rewrite Hu1 |]]] |].
  - unfold w1, Dashboard.step. apply render_tour_iff. reflexivity.
  - assert (Hd : Dashboard.dispatch (Dashboard.ChatSettled o now1 now2) w1
                 = Dashboard.handleSendMessage_settled o now1 now2 w1).
    { simpl. destruct (Dashboard.pending w) eqn:E; [congruence | reflexivity]. }
    assert (Hm : Dashboard.messages (Dashboard.ui w2)
                 = [match o with
                    | Resolved (Some data) => botMessage data
                    | Resolved None | Rejected => Dashboard.errorMessage now1 now2
                    end]).
    { unfold w2, Dashboard.step. rewrite render_ui, Hd, dashboard_settled_messages, Hu1.
      reflexivity. }
    split; [| split; [exact Hm |]].
    + unfold w2, Dashboard.step. rewrite render_ui, Hd.
      destruct (dashboard_settled_frame o now1 now2 w1) as (-> & _). now rewrite Hu1.
    + unfold Dashboard.tourState.
      destruct (Dashboard.tour w2) as [t |] eqn:Ht; [| reflexivity].
      assert (Hs : is_Some (Dashboard.tour w2)) by (rewrite Ht; eauto).
      unfold w2, Dashboard.step in Hs.
      apply render_tour_iff, activeView_tour_iff in Hs as [_ Hnil].
      unfold w2, Dashboard.step in Hm. rewrite render_ui in Hm. congruence.
Qed.

Lemma stale_answer_lands_after_reset_witness :
  let w := Dashboard.run
             [Dashboard.SidebarNavigation "api" "unused" "2025-01-01T00:00:00.000Z"]
             (Dashboard.mount ∅ "f47ac10b") in
  Dashboard.pending w <> 0
  /\ map isError
       (Dashboard.messages
          (Dashboard.ui
             (Dashboard.run
                [Dashboard.SidebarNewConversation "0b5e2d6c";
                 Dashboard.ChatSettled Rejected "2025-01-01T00:00:05.000Z"
                   "2025-01-01T00:00:05.001Z"] w)))
     = [true].
Proof.
  intros w.
  assert (Hp : Dashboard.pending w <> 0) by discriminate.
  split; [exact Hp |].
  destruct (stale_answer_lands_after_reset w "0b5e2d6c" Rejected
              "2025-01-01T00:00:05.000Z" "2025-01-01T00:00:05.001Z" Hp)
    as (_ & _ & Hm & _).
  simpl Dashboard.run. rewrite Hm. reflexivity.
Defined.

(** ** The stage index of the tour *)

Lemma click_in_script (script : list GuidedTour.Stage) (a : GuidedTour.Action)
  (st : GuidedTour.State) :
  GuidedTourView.in_script script st ->
  GuidedTourView.in_script script (fst (GuidedTour.click script a st)).
Proof.
  intros [Hlt Hz]. unfold GuidedTour.click.
  destruct (GuidedTour.rendered script a st) eqn:Hr; [| now split].
  destruct a; simpl in *.
  - split; [exact Hlt | discriminate].
  - unfold GuidedTour.handleContinue.
    destruct (Nat.ltb_spec (GuidedTour.currentStage st) (length script - 1)); simpl;
      [| now split].
    split; simpl; [lia | congruence].
  - unfold GuidedTour.handleDeepDive.
    destruct (script !! GuidedTour.currentStage st); now split.
  - now split.
  - apply andb_prop in Hr as [Hs Hi]. apply Nat.ltb_lt in Hi.
    unfold GuidedTour.handleStageClick.
    destruct ((index <=? _) || (index =? _)); simpl; [| now split].
    split; simpl; [exact Hi | congruence].
Qed.

Lemma click_stage_step (script : list GuidedTour.Stage) (a : GuidedTour.Action)
  (st : GuidedTour.State) :
  GuidedTour.currentStage (fst (GuidedTour.click script a st))
  <= GuidedTour.currentStage st + 1
  /\ (GuidedTour.tourStarted st = true ->
      GuidedTour.tourStarted (fst (GuidedTour.click script a st)) = true)
  /\ (GuidedTour.tourStarted st = false ->
      GuidedTour.currentStage (fst (GuidedTour.click script a st))
      = GuidedTour.currentStage st).
Proof.
  assert (Hsame : GuidedTour.currentStage st <= GuidedTour.currentStage st + 1
                  /\ (GuidedTour.tourStarted st = true -> GuidedTour.tourStarted st = true)
                  /\ (GuidedTour.tourStarted st = false ->
                      GuidedTour.currentStage st = GuidedTour.currentStage st))
    by (repeat split; [lia | tauto]).
  unfold GuidedTour.click.
  destruct (GuidedTour.rendered script a st) eqn:Hr; [| exact Hsame].
  destruct a; simpl in Hr.
  - simpl. repeat split. lia.
  - unfold GuidedTour.handleContinue.
    destruct (GuidedTour.currentStage st <? length script - 1); [| exact Hsame].
    simpl. repeat split; [lia | tauto | congruence].
  - unfold GuidedTour.handleDeepDive.
    destruct (script !! GuidedTour.currentStage st); exact Hsame.
  - exact Hsame.
  - apply andb_prop in Hr as [Hs Hi].
    unfold GuidedTour.handleStageClick.
    destruct (Nat.leb_spec index (GuidedTour.currentStage st)); simpl;
      [repeat split; [lia | tauto | congruence] |].
    destruct (Nat.eqb_spec index (GuidedTour.currentStage st + 1)); simpl;
      [repeat split; [lia | tauto | congruence] | exact Hsame].
Qed.

Lemma clicks_cons (script : list GuidedTour.Stage) (a : GuidedTour.Action)
  (acts : list GuidedTour.Action) (st : GuidedTour.State) :
  fst (GuidedTour.clicks script (a :: acts) st)
  = fst (GuidedTour.click script a st)
    :: fst (GuidedTour.clicks script acts (fst (GuidedTour.click script a st))).
Proof.
  simpl. destruct (GuidedTour.click script a st) as [st' cbs]. simpl.
  destruct (GuidedTour.clicks script acts st') as [visited cbs']. reflexivity.
Qed.

Lemma clicks_in_script (script : list GuidedTour.Stage) (acts : list GuidedTour.Action)
  (st : GuidedTour.State) :
  GuidedTourView.in_script script st ->
  Forall (GuidedTourView.in_script script) (fst (GuidedTour.clicks script acts st)).
Proof.
  revert st. induction acts as [| a acts IH]; intros st Hst; [constructor |].
  rewrite clicks_cons. constructor; [| apply IH]; now apply click_in_script.
Qed.

Lemma clicks_stage_bound (script : list GuidedTour.Stage) (acts : list GuidedTour.Action)
  (st : GuidedTour.State) (k : nat) (st_k : GuidedTour.State) :
  fst (GuidedTour.clicks script acts st) !! k = Some st_k ->
  GuidedTour.currentStage st_k <= GuidedTour.currentStage st + S k.
Proof.
  revert st k. induction acts as [| a acts IH]; intros st k; [discriminate |].
  rewrite clicks_cons. destruct (click_stage_step script a st) as (Hle & _).
  destruct k as [| k]; simpl.
  - intros [= <-]. lia.
  - intros Hk. apply IH in Hk. lia.
Qed.

Lemma clicks_stage_bound_welcome (script : list GuidedTour.Stage)
  (acts : list GuidedTour.Action) (st : GuidedTour.State) (k : nat)
  (st_k : GuidedTour.State) :
  GuidedTour.tourStarted st = false ->
  fst (GuidedTour.clicks script acts st) !! k = Some st_k ->
  GuidedTour.currentStage st_k <= GuidedTour.currentStage st + k.
Proof.
  revert st k. induction acts as [| a acts IH]; intros st k Hns; [discriminate |].
  rewrite clicks_cons. destruct (click_stage_step script a st) as (_ & _ & Heq).
  specialize (Heq Hns).
  destruct k as [| k]; simpl.
  - intros [= <-]. lia.
  - intros Hk.
    destruct (GuidedTour.tourStarted (fst (GuidedTour.click script a st))) eqn:Hs.
    + apply clicks_stage_bound in Hk. lia.
    + apply IH in Hk; [lia | exact Hs].
Qed.

Lemma dashboard_send_tour (message now : string) (w : Dashboard.World) :
  Dashboard.tour (Dashboard.handleSendMessage message now w) = Dashboard.tour w.
Proof. apply (dashboard_send_frame message now w). Qed.

Lemma dispatch_tour (e : Dashboard.Event) (w : Dashboard.World) :
  Dashboard.tour (Dashboard.dispatch e w)
  = match e, Dashboard.tour w with
    | Dashboard.TourClick a _, Some t =>
        Some (fst (GuidedTour.click GuidedTour.stages a t))
    | _, _ => Dashboard.tour w
    end.
Proof.
  destruct e; simpl.
  - now destruct (Dashboard.isLoading (Dashboard.ui w)).
  - unfold InputBox.handleSubmit.
    destruct (JS.truthy (JS.trim _) && negb _); simpl;
      [now rewrite dashboard_send_tour | reflexivity].
  - destruct (Dashboard.suggestion_rendered suggestion (Dashboard.ui w));
      [apply dashboard_send_tour | reflexivity].
  - unfold Sidebar.handleNavigation.
    repeat (match goal with |- context [String.eqb ?a ?b] => destruct (String.eqb a b) end);
      simpl; rewrite ?dashboard_send_tour; reflexivity.
  - reflexivity.
  - reflexivity.
  - unfold Dashboard.handleKeyboardShortcuts.
    now destruct ((metaKey || ctrlKey) && String.eqb key "k").
  - destruct (Dashboard.tour w) as [t |] eqn:Ht; [| exact Ht].
    destruct (GuidedTour.click GuidedTour.stages a t) as [t' cbs] eqn:Hc. simpl.
    assert (Hall : forall v, Dashboard.tour
                     (Dashboard.runAll (Dashboard.runTourCallback now) cbs v)
                   = Dashboard.tour v).
    { clear. induction cbs as [| cb cbs IH]; intros v; [reflexivity |].
      unfold Dashboard.runAll in *. simpl. rewrite IH.
      destruct cb; simpl; [apply dashboard_send_tour | reflexivity]. }
    now rewrite Hall.
  - destruct (Dashboard.pending w); [reflexivity |].
    now destruct o as [| [data |]].
  - destruct (Dashboard.fetching w); [| reflexivity].
    now destruct o as [| [[[[| msg rest] |]] |]].
Qed.

Lemma initial_in_script : GuidedTourView.in_script GuidedTour.stages GuidedTour.initial.
Proof. split; [simpl; lia | reflexivity]. Qed.

Lemma render_tour_inv (w : Dashboard.World) :
  dashboard_tour_inv w -> dashboard_tour_inv (Dashboard.render w).
Proof.
  unfold dashboard_tour_inv, Dashboard.render.
  destruct (Dashboard.activeView (Dashboard.ui w)); simpl; [| trivial].
  destruct (Dashboard.tour w); [trivial | intros _; apply initial_in_script].
Qed.

Lemma step_tour_inv (e : Dashboard.Event) (w : Dashboard.World) :
  dashboard_tour_inv w -> dashboard_tour_inv (Dashboard.step w e).
Proof.
  intros Hinv. unfold Dashboard.step. apply render_tour_inv.
  unfold dashboard_tour_inv in *. rewrite dispatch_tour.
  destruct e; try exact Hinv.
  destruct (Dashboard.tour w) as [t |]; [| trivial].
  now apply click_in_script.
Qed.

(** X8. The stage index of the tour never leaves the script: whatever the
    user clicks among the buttons on screen, on any script that is not
    empty, the current stage stays below the number of stages, so the
    stage the render reads always exists; the welcome screen sits on stage
    0.  In the dashboard this holds for the mounted tour after every run of
    events. *)
Theorem tour_stage_in_script :
  (forall (script : list GuidedTour.Stage) (acts : list GuidedTour.Action),
      script <> [] ->
      Forall (fun st => GuidedTour.currentStage st < length script
                        /\ is_Some (script !! GuidedTour.currentStage st)
                        /\ (GuidedTour.tourStarted st = false ->
                            GuidedTour.currentStage st = 0))
        (fst (GuidedTour.clicks script acts GuidedTour.initial)))
  /\ (forall (storage : gmap string string) (uuid : string) (es : list Dashboard.Event)
             (t : GuidedTour.State),
      Dashboard.tour (Dashboard.run es (Dashboard.mount storage uuid)) = Some t ->
      GuidedTour.currentStage t < length GuidedTour.stages
      /\ is_Some (GuidedTour.stages !! GuidedTour.currentStage t)).
Proof.
  split.
  - intros script acts Hne.
    assert (Hi : GuidedTourView.in_script script GuidedTour.initial).
    { split; [| reflexivity]. destruct script; [contradiction | simpl; lia]. }
    apply (clicks_in_script script acts) in Hi.
    eapply Forall_impl; [exact Hi |].
    intros st [Hlt Hz]. repeat split; [exact Hlt | now apply lookup_lt_is_Some | exact Hz].
  - intros storage uuid es t Ht.
    assert (Hinv : dashboard_tour_inv (Dashboard.run es (Dashboard.mount storage uuid))).
    { assert (Hm : dashboard_tour_inv (Dashboard.mount storage uuid)).
      { unfold Dashboard.mount. apply render_tour_inv.
        destruct (storage !! session_key) as [sid |]; [destruct (JS.truthy sid) |];
          exact I. }
      revert Hm. generalize (Dashboard.mount storage uuid). clear Ht.
      induction es as [| e es IH]; intros w Hw; [exact Hw |].
      simpl. now apply IH, step_tour_inv. }
    unfold dashboard_tour_inv in Hinv. rewrite Ht in Hinv. destruct Hinv as [Hlt _].
    split; [exact Hlt | now apply lookup_lt_is_Some].
Qed.

Lemma tour_stage_in_script_witness :
  let es := [Dashboard.TourClick GuidedTour.StartTour "";
             Dashboard.TourClick (GuidedTour.StageClick 1) "";
             Dashboard.TourClick (GuidedTour.StageClick 7) ""] in
  let t := {| GuidedTour.currentStage := 1; GuidedTour.tourStarted := true |} in
  GuidedTour.stages <> []
  /\ Forall (fun st => GuidedTour.currentStage st < length GuidedTour.stages
                       /\ is_Some (GuidedTour.stages !! GuidedTour.currentStage st)
                       /\ (GuidedTour.tourStarted st = false ->
                           GuidedTour.currentStage st = 0))
       (fst (GuidedTour.clicks GuidedTour.stages
               [GuidedTour.StageClick 3; GuidedTour.StartTour; GuidedTour.StageClick 4;
                GuidedTour.StageClick 1; GuidedTour.StageClick 5; GuidedTour.Continue]
               GuidedTour.initial))
  /\ Dashboard.tour (Dashboard.run es (Dashboard.mount ∅ "f47ac10b")) = Some t
  /\ GuidedTour.currentStage t < length GuidedTour.stages.
Proof.
  intros es t.
  assert (Hne : GuidedTour.stages <> []) by discriminate.
  assert (Ht : Dashboard.tour (Dashboard.run es (Dashboard.mount ∅ "f47ac10b")) = Some t)
    by reflexivity.
  split; [exact Hne | split; [| split; [exact Ht |]]].
  - exact (proj1 tour_stage_in_script GuidedTour.stages _ Hne).
  - exact (proj1 (proj2 tour_stage_in_script ∅ "f47ac10b" es t Ht)).
Defined.

(** X9. The tour cannot be skipped through: one click raises the stage by
    at most one, a started tour stays started while it is on screen, and
    the state reached by the [k]-th click after the welcome screen (counting
    from zero) is at a stage no higher than [k], because the first click
    that matters can only start the tour at stage 0. *)
Theorem tour_no_skipping (script : list GuidedTour.Stage) :
  (forall (a : GuidedTour.Action) (st : GuidedTour.State),
      GuidedTour.currentStage (fst (GuidedTour.click script a st))
      <= GuidedTour.currentStage st + 1
      /\ (GuidedTour.tourStarted st = true ->
          GuidedTour.tourStarted (fst (GuidedTour.click script a st)) = true))
  /\ (forall (acts : list GuidedTour.Action) (k : nat) (st_k : GuidedTour.State),
      fst (GuidedTour.clicks script acts GuidedTour.initial) !! k = Some st_k ->
      GuidedTour.currentStage st_k <= k).
Proof.
  split.
  - intros a st. destruct (click_stage_step script a st) as (H1 & H2 & _). now split.
  - intros acts k st_k Hk.
    apply clicks_stage_bound_welcome in Hk; [exact Hk | reflexivity].
Qed.

Lemma tour_no_skipping_witness :
  let acts := [GuidedTour.StartTour; GuidedTour.Continue; GuidedTour.StageClick 4;
               GuidedTour.StageClick 2] in
  fst (GuidedTour.clicks GuidedTour.stages acts GuidedTour.initial) !! 3
  = Some {| GuidedTour.currentStage := 2; GuidedTour.tourStarted := true |}
  /\ 2 <= 3.
Proof.
  intros acts.
  assert (Hk : fst (GuidedTour.clicks GuidedTour.stages acts GuidedTour.initial) !! 3
               = Some {| GuidedTour.currentStage := 2; GuidedTour.tourStarted := true |})
    by reflexivity.
  split; [exact Hk |].
  exact (proj2 (tour_no_skipping GuidedTour.stages) acts 3 _ Hk).
Defined.

(** ** The continue button *)

(** X10. The label of the continue button tells what the button does: on
    every stage but the last it is that stage's [continuePrompt] and the
    click moves one stage on; on the last stage it is [Start Exploring]
    and the click calls the exit callback.  So the [continuePrompt] of the
    last stage of the source, [Complete Tour], is never put on screen. *)
Theorem continue_label_announces_action :
  (forall (script : list GuidedTour.Stage) (st : GuidedTour.State),
      GuidedTour.currentStage st < length script ->
      exists stage : GuidedTour.Stage,
        script !! GuidedTour.currentStage st = Some stage
        /\ ((GuidedTour.currentStage st + 1 < length script
             /\ GuidedTourView.continueLabel script st
                = Some (GuidedTour.continuePrompt stage)
             /\ GuidedTour.handleContinue script st
                = ({| GuidedTour.currentStage := GuidedTour.currentStage st + 1;
                      GuidedTour.tourStarted := GuidedTour.tourStarted st |}, []))
            \/ (GuidedTour.currentStage st + 1 = length script
                /\ GuidedTourView.continueLabel script st = Some "Start Exploring"
                /\ GuidedTour.handleContinue script st = (st, [GuidedTour.onExitTour]))))
  /\ (forall st : GuidedTour.State,
      GuidedTourView.continueLabel GuidedTour.stages st <> Some "Complete Tour").
Proof.
  split.
  - intros script st Hlt.
    destruct (lookup_lt_is_Some_2 script _ Hlt) as [stage Hs].
    exists stage. split; [exact Hs |].
    unfold GuidedTourView.continueLabel. rewrite Hs.
    destruct (Nat.ltb_spec (GuidedTour.currentStage st) (length script - 1)) as [H | H].
    + left. split; [lia | split; [reflexivity |]].
      apply handleContinue_advance. lia.
    + right. split; [lia | split; [reflexivity |]].
      apply handleContinue_last. lia.
  - intros [c s]. unfold GuidedTourView.continueLabel. simpl.
    do 5 (destruct c as [| c]; [simpl; discriminate |]). discriminate.
Qed.

Lemma continue_label_announces_action_witness :
  let st := {| GuidedTour.currentStage := 4; GuidedTour.tourStarted := true |} in
  GuidedTour.currentStage st < length GuidedTour.stages
  /\ exists stage : GuidedTour.Stage,
       GuidedTour.stages !! GuidedTour.currentStage st = Some stage
       /\ ((GuidedTour.currentStage st + 1 < length GuidedTour.stages
            /\ GuidedTourView.continueLabel GuidedTour.stages st
               = Some (GuidedTour.continuePrompt stage)
            /\ GuidedTour.handleContinue GuidedTour.stages st
               = ({| GuidedTour.currentStage := GuidedTour.currentStage st + 1;
                     GuidedTour.tourStarted := GuidedTour.tourStarted st |}, []))
           \/ (GuidedTour.currentStage st + 1 = length GuidedTour.stages
               /\ GuidedTourView.continueLabel GuidedTour.stages st = Some "Start Exploring"
               /\ GuidedTour.handleContinue GuidedTour.stages st
                  = (st, [GuidedTour.onExitTour]))).
Proof.
  intros st.
  assert (Hlt : GuidedTour.currentStage st < length GuidedTour.stages) by (simpl; lia).
  split; [exact Hlt |].
  exact (proj1 continue_label_announces_action GuidedTour.stages st Hlt).
Defined.

(** ** A deep dive from the tour *)

Lemma deep_dive_prompts_not_blank :
  Forall (fun stage => JS.trim (GuidedTour.deepDivePrompt stage) <> "") GuidedTour.stages.
Proof. repeat constructor; vm_compute; discriminate. Qed.

(** X11. A deep dive on any stage of the tour sends that stage's prompt as
    a user message: the message is appended, one request carrying the
    prompt leaves, the loading flag goes up, and the tour disappears from
    the screen, since the timeline is no longer empty. *)
Theorem deep_dive_leaves_tour (w : Dashboard.World) (t : GuidedTour.State) (now : string) :
  Dashboard.tour w = Some t ->
  GuidedTour.tourStarted t = true ->
  GuidedTour.currentStage t < length GuidedTour.stages ->
  exists stage : GuidedTour.Stage,
    GuidedTour.stages !! GuidedTour.currentStage t = Some stage
    /\ let w' := Dashboard.step w (Dashboard.TourClick GuidedTour.DeepDive now) in
       Dashboard.messages (Dashboard.ui w')
       = Dashboard.messages (Dashboard.ui w)
         ++ [userMessage (GuidedTour.deepDivePrompt stage) now]
       /\ Dashboard.posted w'
          = Dashboard.posted w
            ++ [Dashboard.chatRequest (GuidedTour.deepDivePrompt stage) (Dashboard.ui w)]
       /\ Dashboard.isLoading (Dashboard.ui w') = true
       /\ Dashboard.tourState w' = Dashboard.Exited.
Proof.
  intros Ht Hs Hlt.
  destruct (lookup_lt_is_Some_2 GuidedTour.stages _ Hlt) as [stage Hstage].
  exists stage. split; [exact Hstage |].
  assert (Hne : JS.trim (GuidedTour.deepDivePrompt stage) <> "").
  { apply list_elem_of_lookup_2 in Hstage.
    exact (proj1 (Forall_forall _ _) deep_dive_prompts_not_blank stage Hstage). }
  assert (Hd : Dashboard.dispatch (Dashboard.TourClick GuidedTour.DeepDive now) w
               = Dashboard.handleSendMessage (GuidedTour.deepDivePrompt stage) now
                   (Dashboard.with_tour (Some t) w)).
  { simpl. rewrite Ht. unfold GuidedTour.click. simpl. rewrite Hs.
    unfold GuidedTour.handleDeepDive. rewrite Hstage. reflexivity. }
  intros w'. unfold w', Dashboard.step. rewrite Hd.
  rewrite dashboard_send_unfold by exact Hne.
  repeat split.
Qed.

Lemma deep_dive_leaves_tour_witness :
  let w := Dashboard.run
             [Dashboard.TourClick GuidedTour.StartTour "";
              Dashboard.TourClick GuidedTour.Continue ""]
             (Dashboard.mount ∅ "f47ac10b") in
  let t := {| GuidedTour.currentStage := 1; GuidedTour.tourStarted := true |} in
  Dashboard.tour w = Some t
  /\ GuidedTour.tourStarted t = true
  /\ GuidedTour.currentStage t < length GuidedTour.stages
  /\ exists stage : GuidedTour.Stage,
       GuidedTour.stages !! 1 = Some stage
       /\ Dashboard.tourState
            (Dashboard.step w (Dashboard.TourClick GuidedTour.DeepDive
                                 "2025-01-01T00:00:00.000Z"))
          = Dashboard.Exited.
Proof.
  intros w t.
  assert (Ht : Dashboard.tour w = Some t) by reflexivity.
  assert (Hs : GuidedTour.tourStarted t = true) by reflexivity.
  assert (Hlt : GuidedTour.currentStage t < length GuidedTour.stages) by (simpl; lia).
  split; [exact Ht | split; [exact Hs | split; [exact Hlt |]]].
  destruct (deep_dive_leaves_tour w t "2025-01-01T00:00:00.000Z" Ht Hs Hlt)
    as (stage & Hstage & _ & _ & _ & Hexit).
  exists stage. split; [exact Hstage | exact Hexit].
Defined.

(** ** The progress tracker *)

Lemma statuses_all_completed (c s n : nat) :
  s + n <= c ->
  map (ProgressTracker.getStageStatus c) (seq s n) = replicate n ProgressTracker.completed.
Proof.
  revert s. induction n as [| n IH]; intros s H; [reflexivity |].
  simpl. rewrite IH by lia. unfold ProgressTracker.getStageStatus.
  destruct (Nat.ltb_spec s c); [reflexivity | lia].
Qed.

Lemma statuses_all_upcoming (c s n : nat) :
  c < s ->
  map (ProgressTracker.getStageStatus c) (seq s n) = replicate n ProgressTracker.upcoming.
Proof.
  revert s. induction n as [| n IH]; intros s H; [reflexivity |].
  simpl. rewrite IH by lia. unfold ProgressTracker.getStageStatus.
  destruct (Nat.ltb_spec s c); [lia |].
  destruct (Nat.eqb_spec s c); [lia | reflexivity].
Qed.

(** X12. The progress tracker always shows one block of completed stages,
    then the current stage, then the upcoming ones: with the tour on stage
    [c] of [n], the first [c] entries are completed, entry [c] is current
    and the remaining [n - c - 1] are upcoming; the check mark is shown on
    exactly the completed entries. *)
Theorem tracker_statuses_blocks (c n : nat) :
  c < n ->
  ProgressTracker.statuses c n
  = replicate c ProgressTracker.completed
    ++ ProgressTracker.current :: replicate (n - S c) ProgressTracker.upcoming
  /\ (forall index : nat,
      ProgressTracker.showsCheck c index = true
      <-> ProgressTracker.getStageStatus c index = ProgressTracker.completed).
Proof.
  intros Hlt. split.
  - unfold ProgressTracker.statuses.
    assert (Hn : seq 0 n = seq 0 c ++ [c] ++ seq (S c) (n - S c)).
    { replace n with (c + (1 + (n - S c))) at 1 by lia.
      rewrite seq_app, seq_app. simpl. now rewrite Nat.add_1_r. }
    rewrite Hn, !map_app.
    rewrite (statuses_all_completed c 0 c) by lia.
    rewrite (statuses_all_upcoming c (S c)) by lia. simpl.
    unfold ProgressTracker.getStageStatus.
    rewrite Nat.ltb_irrefl, Nat.eqb_refl. reflexivity.
  - intros index. unfold ProgressTracker.showsCheck, ProgressTracker.getStageStatus.
    destruct (index <? c); [tauto |].
    destruct (index =? c); split; discriminate.
Qed.

Lemma tracker_statuses_blocks_witness :
  2 < 5
  /\ ProgressTracker.statuses 2 5
     = [ProgressTracker.completed; ProgressTracker.completed; ProgressTracker.current;
        ProgressTracker.upcoming; ProgressTracker.upcoming].
Proof.
  assert (H : 2 < 5) by lia.
  split; [exact H |].
  rewrite (proj1 (tracker_statuses_blocks 2 5 H)). reflexivity.
Defined.

(** ** The composer *)

(** X13. A submit of the composer with the loading flag down and a text
    that is not blank sends the text exactly as typed, surrounding white
    space included, and empties the box; with the flag up or a blank text
    it changes nothing, the text in the box included.  Enter without Shift
    does what the submit does; Shift+Enter and every other key do nothing
    (the line break is the text area's own). *)
Theorem composer_submit_sends_verbatim (w : Dashboard.World) (now : string) :
  let text := InputBox.message (Dashboard.composer w) in
  let w' := Dashboard.dispatch (Dashboard.ComposerSubmit now) w in
  (Dashboard.isLoading (Dashboard.ui w) = false -> JS.trim text <> "" ->
   Dashboard.messages (Dashboard.ui w')
   = Dashboard.messages (Dashboard.ui w) ++ [userMessage text now]
   /\ map req_message (Dashboard.posted w')
      = map req_message (Dashboard.posted w) ++ [text]
   /\ InputBox.message (Dashboard.composer w') = ""
   /\ InputBox.isFocused (Dashboard.composer w')
      = InputBox.isFocused (Dashboard.composer w))
  /\ (Dashboard.isLoading (Dashboard.ui w) = true \/ JS.trim text = "" -> w' = w)
  /\ (forall (key : string) (shiftKey disabled : bool) (st : InputBox.State),
      InputBox.handleKeyDown key shiftKey disabled st
      = if decide (key = "Enter" /\ shiftKey = false)
        then InputBox.handleSubmit disabled st
        else (st, [])).
Proof.
  intros text w'. split; [| split].
  - intros Hl Hne. unfold w'. simpl. unfold InputBox.handleSubmit. fold text.
    rewrite Hl, (proj2 (truthy_trim_iff text) Hne). simpl.
    rewrite dashboard_send_unfold by exact Hne. simpl.
    rewrite map_app. repeat split.
  - intros Hcase. unfold w'. simpl. unfold InputBox.handleSubmit. fold text.
    assert (Hc : JS.truthy (JS.trim text) && negb (Dashboard.isLoading (Dashboard.ui w))
                 = false).
    { destruct Hcase as [-> | Hb]; [apply andb_false_r |].
      now rewrite (proj2 (blank_trim_iff text) Hb). }
    rewrite Hc. simpl. apply with_composer_same.
  - intros key shiftKey disabled st. unfold InputBox.handleKeyDown.
    case_decide as Hd.
    + destruct Hd as [-> ->]. reflexivity.
    + destruct (String.eqb_spec key "Enter") as [-> | Hk], shiftKey; simpl;
        try reflexivity. contradiction Hd. now split.
Qed.

Lemma composer_submit_sends_verbatim_witness :
  let w := Dashboard.run [Dashboard.ComposerChange "  What is RADP? "]
             (Dashboard.mount ∅ "f47ac10b") in
  Dashboard.isLoading (Dashboard.ui w) = false
  /\ JS.trim (InputBox.message (Dashboard.composer w)) <> ""
  /\ map req_message
       (Dashboard.posted (Dashboard.dispatch (Dashboard.ComposerSubmit "t") w))
     = ["  What is RADP? "].
Proof.
  intros w.
  assert (Hl : Dashboard.isLoading (Dashboard.ui w) = false) by reflexivity.
  assert (Hne : JS.trim (InputBox.message (Dashboard.composer w)) <> "")
    by (vm_compute; discriminate).
  split; [exact Hl | split; [exact Hne |]].
  destruct (proj1 (composer_submit_sends_verbatim w "t") Hl Hne) as (_ & Hp & _).
  rewrite Hp. reflexivity.
Defined.

(** ** The sidebar *)



(** ** The theme preference *)

Lemma applyTheme_applied (w : ThemeContext.World) :
  ThemeContext.isDarkMode (ThemeContext.applyTheme w) = ThemeContext.isDarkMode w
  /\ ThemeContext.darkClass (ThemeContext.applyTheme w) = ThemeContext.isDarkMode w
  /\ ThemeContext.localStorage (ThemeContext.applyTheme w)
     = <[ThemeContext.theme_key :=
           if ThemeContext.isDarkMode w then "dark" else "light"]>
         (ThemeContext.localStorage w).
Proof.
  unfold ThemeContext.applyTheme. destruct (ThemeContext.isDarkMode w); repeat split.
Qed.

Lemma theme_reload_applied (w : ThemeContext.World) (hadClass : bool) :
  ThemeContext.mount hadClass (ThemeContext.localStorage (ThemeContext.applyTheme w))
  = ThemeContext.applyTheme w.
Proof.
  destruct w as [[|] c s];
    unfold ThemeContext.mount, ThemeContext.initialIsDarkMode, ThemeContext.applyTheme;
    simpl; rewrite lookup_insert_eq; simpl; now rewrite insert_insert_eq.
Qed.

Lemma toggles_applied (n : nat) (w : ThemeContext.World) :
  exists v : ThemeContext.World,
    ThemeContext.toggles n (ThemeContext.applyTheme w) = ThemeContext.applyTheme v.
Proof.
  revert w. induction n as [| n IH]; intros w; [now exists w |].
  simpl. unfold ThemeContext.toggleTheme at 1. apply IH.
Qed.

Lemma toggles_mode (n : nat) (w : ThemeContext.World) :
  ThemeContext.isDarkMode (ThemeContext.toggles n w)
  = xorb (ThemeContext.isDarkMode w) (Nat.odd n).
Proof.
  revert w. induction n as [| n IH]; intros w.
  - simpl. now rewrite xorb_false_r.
  - cbn [ThemeContext.toggles]. rewrite IH. unfold ThemeContext.toggleTheme.
    rewrite (proj1 (applyTheme_applied _)). simpl ThemeContext.isDarkMode.
    rewrite Nat.odd_succ, <- Nat.negb_odd.
    now destruct (ThemeContext.isDarkMode w), (Nat.odd n).
Qed.

Lemma toggles_other_keys (n : nat) (w : ThemeContext.World) (key : string) :
  key <> ThemeContext.theme_key ->
  ThemeContext.localStorage (ThemeContext.toggles n w) !! key
  = ThemeContext.localStorage w !! key.
Proof.
  intros Hkey. revert w. induction n as [| n IH]; intros w; [reflexivity |].
  cbn [ThemeContext.toggles]. rewrite IH. unfold ThemeContext.toggleTheme.
  rewrite (proj2 (proj2 (applyTheme_applied _))). simpl.
  now apply lookup_insert_ne.
Qed.

(** X15. The theme survives a reload: after mounting the provider on any
    store and toggling any number of times, mounting it again on the store
    it left behind gives back the same mode, the same class on the document
    and the same store.  The mode after [n] toggles is the mode read at
    mount, flipped when [n] is odd, and the document carries the dark class
    exactly in dark mode. *)
Theorem theme_survives_reload
  (hadClass hadClass' : bool) (storage : gmap string string) (n : nat) :
  let w := ThemeContext.toggles n (ThemeContext.mount hadClass storage) in
  ThemeContext.mount hadClass' (ThemeContext.localStorage w) = w
  /\ ThemeContext.isDarkMode w
     = xorb (ThemeContext.initialIsDarkMode storage) (Nat.odd n)
  /\ ThemeContext.darkClass w = ThemeContext.isDarkMode w
  /\ ThemeContext.initialIsDarkMode (ThemeContext.localStorage w)
     = ThemeContext.isDarkMode w.
Proof.
  intros w. unfold w, ThemeContext.mount.
  destruct (toggles_applied n
              {| ThemeContext.isDarkMode := ThemeContext.initialIsDarkMode storage;
                 ThemeContext.darkClass := hadClass;
                 ThemeContext.localStorage := storage |}) as [v Hv].
  split; [rewrite Hv; apply theme_reload_applied |].
  split; [rewrite toggles_mode, (proj1 (applyTheme_applied _)); reflexivity |].
  rewrite Hv. destruct (applyTheme_applied v) as (Hd & Hc & Hs).
  split; [congruence |].
  unfold ThemeContext.initialIsDarkMode. rewrite Hs, lookup_insert_eq, Hd.
  now destruct (ThemeContext.isDarkMode v).
Qed.

(** X16. The theme provider writes one store key only: every other key,
    the session token among them, holds after any number of toggles what it
    held before the mount.  A stored preference that is anything but
    [dark] (absent, [light], or some other text) mounts the light theme and
    is overwritten with [light]. *)
Theorem theme_writes_own_key_only
  (hadClass : bool) (storage : gmap string string) (n : nat) :
  (forall key : string,
      key <> ThemeContext.theme_key ->
      ThemeContext.localStorage
        (ThemeContext.toggles n (ThemeContext.mount hadClass storage)) !! key
      = storage !! key)
  /\ (storage !! ThemeContext.theme_key <> Some "dark" ->
      ThemeContext.isDarkMode (ThemeContext.mount hadClass storage) = false
      /\ ThemeContext.darkClass (ThemeContext.mount hadClass storage) = false
      /\ ThemeContext.localStorage (ThemeContext.mount hadClass storage)
         = <[ThemeContext.theme_key := "light"]> storage)
  /\ (storage !! ThemeContext.theme_key = Some "dark" ->
      ThemeContext.isDarkMode (ThemeContext.mount hadClass storage) = true
      /\ ThemeContext.localStorage (ThemeContext.mount hadClass storage) = storage).
Proof.
  split; [| split].
  - intros key Hkey. rewrite toggles_other_keys by exact Hkey.
    unfold ThemeContext.mount. rewrite (proj2 (proj2 (applyTheme_applied _))). simpl.
    now apply lookup_insert_ne.
  - intros Hnd.
    assert (Hi : ThemeContext.initialIsDarkMode storage = false).
    { unfold ThemeContext.initialIsDarkMode.
      destruct (storage !! ThemeContext.theme_key) as [v |]; [| reflexivity].
      destruct (String.eqb_spec v "dark") as [-> | Hv]; [now contradiction Hnd | reflexivity]. }
    unfold ThemeContext.mount, ThemeContext.applyTheme. simpl. rewrite Hi. now repeat split.
  - intros Hd.
    assert (Hi : ThemeContext.initialIsDarkMode storage = true).
    { unfold ThemeContext.initialIsDarkMode. now rewrite Hd. }
    unfold ThemeContext.mount, ThemeContext.applyTheme. simpl. rewrite Hi. simpl.
    split; [reflexivity | now apply insert_id].
Qed.

Lemma theme_writes_own_key_only_witness :
  let storage : gmap string string :=
    {[ ThemeContext.theme_key := "solarized"; session_key := "f47ac10b" ]} in
  session_key <> ThemeContext.theme_key
  /\ ThemeContext.localStorage
       (ThemeContext.toggles 3 (ThemeContext.mount true storage)) !! session_key
     = Some "f47ac10b"
  /\ storage !! ThemeContext.theme_key <> Some "dark"
  /\ ThemeContext.isDarkMode (ThemeContext.mount true storage) = false.
Proof.
  intros storage.
  assert (Hk : session_key <> ThemeContext.theme_key) by discriminate.
  assert (Hnd : storage !! ThemeContext.theme_key <> Some "dark") by (vm_compute; discriminate).
  destruct (theme_writes_own_key_only true storage 3) as (Hframe & Hlight & _).
  split; [exact Hk | split; [| split; [exact Hnd |]]].
  - rewrite (Hframe session_key Hk). reflexivity.
  - exact (proj1 (Hlight Hnd)).
Defined.

(** ** The keyboard shortcuts *)



(** ** Restored history *)

Lemma formatted_plain (l : list HistoryMessage) :
  Forall (fun m => suggestions m = None /\ isError m = false
                   /\ MessageBubble.suggestionButtons (MessageBubble.renderContent m) = [])
    (map formatHistoryMessage l).
Proof.
  apply Forall_forall. intros m Hm. apply list_elem_of_In, in_map_iff in Hm as (h & <- & _).
  repeat split. unfold MessageBubble.renderContent. simpl. now destruct (h_role h).
Qed.

Lemma no_suggestions_none_rendered (s : string) (st : Dashboard.State) :
  Forall (fun m => suggestions m = None) (Dashboard.messages st) ->
  Dashboard.suggestion_rendered s st = false.
Proof.
  intros Hall. unfold Dashboard.suggestion_rendered.
  destruct (Dashboard.activeView st); [reflexivity |].
  induction Hall as [| m l Hm Hl IH]; [reflexivity |].
  simpl. rewrite Hm, IH. now destruct (role m).
Qed.

(** X18. A restored timeline keeps the order of the fetched entries and
    their role, text and timestamp, in both hosts, and it is plain: no
    restored message carries suggestions or the error flag, so after a
    reload the dashboard offers no suggestion button at all, whatever the
    answers showed before. *)
Theorem restored_history_is_plain :
  (forall (msg : HistoryMessage) (rest : list HistoryMessage) (w : Dashboard.World),
      let restored :=
        Dashboard.messages
          (Dashboard.ui (Dashboard.loadHistory_settled
                           (HistoryResolved (Some {| h_messages := Some (msg :: rest) |})) w)) in
      map role restored = map h_role (msg :: rest)
      /\ map content restored = map h_content (msg :: rest)
      /\ map timestamp restored = map h_timestamp (msg :: rest)
      /\ Forall (fun m => suggestions m = None /\ isError m = false
                          /\ MessageBubble.suggestionButtons (MessageBubble.renderContent m)
                             = []) restored
      /\ (forall s : string,
          Dashboard.suggestion_rendered s
            (Dashboard.ui (Dashboard.loadHistory_settled
                             (HistoryResolved (Some {| h_messages := Some (msg :: rest) |})) w))
          = false))
  /\ (forall (l : list HistoryMessage) (w : ChatWidget.World),
      let restored :=
        ChatWidget.messages
          (ChatWidget.ui (ChatWidget.loadHistory_settled
                            (HistoryResolved (Some {| h_messages := Some l |})) w)) in
      map role restored = map h_role l
      /\ map content restored = map h_content l
      /\ map timestamp restored = map h_timestamp l
      /\ Forall (fun m => suggestions m = None /\ isError m = false) restored
      /\ (forall s : string,
          ChatWidget.suggestion_rendered s
            (ChatWidget.ui (ChatWidget.loadHistory_settled
                              (HistoryResolved (Some {| h_messages := Some l |})) w))
          = false)).
Proof.
  split.
  - intros msg rest w restored.
    assert (Hr : restored = map formatHistoryMessage (msg :: rest)) by reflexivity.
    rewrite Hr, !map_map. repeat split; try reflexivity.
    + apply formatted_plain.
    + intros s. apply no_suggestions_none_rendered.
      change (Forall (fun m => suggestions m = None) (map formatHistoryMessage (msg :: rest))).
      eapply Forall_impl; [apply formatted_plain |]. now intros m (H & _).
  - intros l w restored.
    assert (Hr : restored = map formatHistoryMessage l) by reflexivity.
    rewrite Hr, !map_map. repeat split; try reflexivity.
    + eapply Forall_impl; [apply formatted_plain |]. now intros m (H1 & H2 & _).
    + intros s. unfold ChatWidget.suggestion_rendered.
      change (ChatWidget.messages _) with (map formatHistoryMessage l).
      clear. induction l as [| h l IH]; [reflexivity |].
      simpl. rewrite IH. now destruct (h_role h).
Qed.

(** X19. Loading a history is idempotent in both hosts: settling the same
    answer a second time changes no state cell.  The chat widget, unlike
    the dashboard, takes any fetched list: an empty one empties its
    timeline, welcome message included, and clears the welcome flag; an
    answer without a list, without a payload, or a failed fetch leaves the
    widget as it was. *)
Theorem history_load_idempotent :
  (forall (o : HistoryOutcome) (w : Dashboard.World),
      Dashboard.ui (Dashboard.loadHistory_settled o (Dashboard.loadHistory_settled o w))
      = Dashboard.ui (Dashboard.loadHistory_settled o w))
  /\ (forall (o : HistoryOutcome) (w : ChatWidget.World),
      ChatWidget.ui (ChatWidget.loadHistory_settled o (ChatWidget.loadHistory_settled o w))
      = ChatWidget.ui (ChatWidget.loadHistory_settled o w))
  /\ (forall (l : list HistoryMessage) (w : ChatWidget.World),
      let w' := ChatWidget.loadHistory_settled
                  (HistoryResolved (Some {| h_messages := Some l |})) w in
      ChatWidget.messages (ChatWidget.ui w') = map formatHistoryMessage l
      /\ ChatWidget.showWelcome (ChatWidget.ui w') = false)
  /\ (forall (storage : gmap string string) (uuid now : string),
      ChatWidget.messages
        (ChatWidget.ui
           (ChatWidget.loadHistory_settled
              (HistoryResolved (Some {| h_messages := Some [] |}))
              (ChatWidget.mount storage uuid now)))
      = [])
  /\ (forall (o : HistoryOutcome) (w : ChatWidget.World),
      o = HistoryRejected \/ o = HistoryResolved None
      \/ o = HistoryResolved (Some {| h_messages := None |}) ->
      ChatWidget.ui (ChatWidget.loadHistory_settled o w) = ChatWidget.ui w).
Proof.
  split; [| split; [| split; [| split]]].
  - intros o w. now destruct o as [| [[[[| msg rest] |]] |]].
  - intros o w. now destruct o as [| [[[l |]] |]].
  - intros l w w'. now split.
  - reflexivity.
  - intros o w [-> | [-> | ->]]; reflexivity.
Qed.

Lemma history_load_idempotent_witness :
  (HistoryRejected = HistoryRejected \/ HistoryRejected = HistoryResolved None
   \/ HistoryRejected = HistoryResolved (Some {| h_messages := None |}))
  /\ length (ChatWidget.messages
               (ChatWidget.ui (ChatWidget.loadHistory_settled HistoryRejected
                                 (ChatWidget.mount {[ session_key := "f47ac10b" ]}
                                    "unused" "2025-01-01T00:00:00.000Z"))))
     = 1.
Proof.
  assert (H : HistoryRejected = HistoryRejected \/ HistoryRejected = HistoryResolved None
              \/ HistoryRejected = HistoryResolved (Some {| h_messages := None |}))
    by (left; reflexivity).
  split; [exact H |].
  rewrite (proj2 (proj2 (proj2 (proj2 history_load_idempotent))) HistoryRejected _ H).
  reflexivity.
Defined.

(** ** The mode-change notice *)

Lemma replace_first (pat rep : ascii) (a b : string) :
  ~ In pat (list_ascii_of_string a) ->
  JS.replace pat rep (a +:+ String pat b) = a +:+ String rep b.
Proof.
  induction a as [| c a IH]; intros Hnot; simpl.
  - now rewrite Ascii.eqb_refl.
  - destruct (Ascii.eqb_spec c pat) as [-> | Hc]; [contradiction Hnot; now left |].
    rewrite IH; [reflexivity |]. intros Hin. apply Hnot. now right.
Qed.

Lemma replace_absent (pat rep : ascii) (a : string) :
  ~ In pat (list_ascii_of_string a) -> JS.replace pat rep a = a.
Proof.
  induction a as [| c a IH]; intros Hnot; simpl; [reflexivity |].
  destruct (Ascii.eqb_spec c pat) as [-> | Hc]; [contradiction Hnot; now left |].
  rewrite IH; [reflexivity |]. intros Hin. apply Hnot. now right.
Qed.

(** X20. The notice a mode change appends names the mode with its first
    underscore turned into a space and every later underscore kept: for a
    mode [a_b] with no underscore in [a] the text is [Mode changed to: a b],
    with [b] as it is, and a mode without underscore is named unchanged. *)
Theorem mode_notice_first_underscore (a b now : string) :
  ~ In "_"%char (list_ascii_of_string a) ->
  content (ChatWidget.modeChangeMsg (a +:+ String "_" b) now)
  = Some ("Mode changed to: " +:+ a +:+ String " " b)
  /\ content (ChatWidget.modeChangeMsg a now) = Some ("Mode changed to: " +:+ a).
Proof.
  intros Hnot. unfold ChatWidget.modeChangeMsg. simpl content.
  now rewrite replace_first, replace_absent.
Qed.

Lemma mode_notice_first_underscore_witness :
  ~ In "_"%char (list_ascii_of_string "module")
  /\ content (ChatWidget.modeChangeMsg "module_deep_dive" "2025-01-01T00:00:00.000Z")
     = Some "Mode changed to: module deep_dive".
Proof.
  assert (Hnot : ~ In "_"%char (list_ascii_of_string "module")).
  { simpl. intros H. repeat (destruct H as [H | H]; [discriminate H |]). exact H. }
  split; [exact Hnot |].
  exact (proj1 (mode_notice_first_underscore "module" "deep_dive"
                  "2025-01-01T00:00:00.000Z" Hnot)).
Defined.

(** ** Exchanges through the composer of the chat widget *)

Lemma widget_exchange_run (x : WidgetExchange) (w : ChatWidget.World) :
  ChatWidget.isLoading (ChatWidget.ui w) = false ->
  JS.trim (wx_text x) <> "" ->
  let w' := ChatWidget.run (widget_exchange_events x) w in
  ChatWidget.messages (ChatWidget.ui w')
  = ChatWidget.messages (ChatWidget.ui w)
    ++ [userMessage (wx_text x) (wx_now x); widget_terminal x]
  /\ ChatWidget.posted w'
     = ChatWidget.posted w ++ [ChatWidget.chatRequest (wx_text x) (ChatWidget.ui w)]
  /\ ChatWidget.isLoading (ChatWidget.ui w') = false
  /\ ChatWidget.pending w' = ChatWidget.pending w
  /\ ChatWidget.mode (ChatWidget.ui w') = ChatWidget.mode (ChatWidget.ui w)
  /\ ChatWidget.sessionId (ChatWidget.ui w') = ChatWidget.sessionId (ChatWidget.ui w)
  /\ ChatWidget.selectedModule (ChatWidget.ui w')
     = ChatWidget.selectedModule (ChatWidget.ui w).
Proof.
  intros Hl Hne w'. unfold w', widget_exchange_events, ChatWidget.run. simpl.
  unfold InputBox.handleSubmit. simpl.
  rewrite Hl, (proj2 (truthy_trim_iff _) Hne). simpl.
  rewrite widget_send_unfold by exact Hne. simpl.
  unfold widget_terminal.
  destruct (wx_outcome x) as [| [data |]]; simpl; rewrite <- app_assoc; repeat split.
Qed.

(** X21. In the chat widget, exchanges made through the composer pair up:
    starting with the loading flag down, after any number of submits of
    texts that are not blank, each settled before the next, the timeline is
    the earlier timeline followed by one user message and one answer or
    error message per exchange, in order; one request per exchange has
    left, carrying the text as typed and the mode, module and session of
    the widget; and the loading flag is down again. *)
Theorem widget_composer_exchanges_pair (xs : list WidgetExchange) (w : ChatWidget.World) :
  ChatWidget.isLoading (ChatWidget.ui w) = false ->
  Forall (fun x => JS.trim (wx_text x) <> "") xs ->
  let w' := ChatWidget.run (flat_map widget_exchange_events xs) w in
  ChatWidget.messages (ChatWidget.ui w')
  = ChatWidget.messages (ChatWidget.ui w)
    ++ flat_map (fun x => [userMessage (wx_text x) (wx_now x); widget_terminal x]) xs
  /\ ChatWidget.posted w'
     = ChatWidget.posted w
       ++ map (fun x => ChatWidget.chatRequest (wx_text x) (ChatWidget.ui w)) xs
  /\ ChatWidget.isLoading (ChatWidget.ui w') = false
  /\ ChatWidget.pending w' = ChatWidget.pending w.
Proof.
  intros Hl Hall. revert w Hl.
  induction Hall as [| x xs Hx Hxs IH]; intros w Hl w'.
  - unfold w'. simpl. rewrite !app_nil_r. now repeat split.
  - unfold w'. cbn [flat_map]. unfold ChatWidget.run. rewrite fold_left_app.
    fold (ChatWidget.run (widget_exchange_events x) w).
    fold (ChatWidget.run (flat_map widget_exchange_events xs)
            (ChatWidget.run (widget_exchange_events x) w)).
    destruct (widget_exchange_run x w Hl Hx) as (Hm & Hp & Hl1 & Hpe & Hmo & Hs & Hsm).
    remember (ChatWidget.run (widget_exchange_events x) w) as w1 eqn:E. clear E.
    destruct (IH w1 Hl1) as (Hm' & Hp' & Hl' & Hpe').
    rewrite Hm', Hp', Hm, Hp, Hpe', Hpe.
    split; [now rewrite <- app_assoc |].
    split; [| now split].
    rewrite <- app_assoc. f_equal. cbn [map app]. f_equal.
    apply map_ext. intros y. unfold ChatWidget.chatRequest. now rewrite Hmo, Hs, Hsm.
Qed.

Lemma widget_composer_exchanges_pair_witness :
  let xs := [ {| wx_text := "Hello"; wx_now := "2025-01-01T00:00:01.000Z";
                 wx_outcome := Rejected; wx_settled_at := "2025-01-01T00:00:02.000Z" |};
              {| wx_text := " again "; wx_now := "2025-01-01T00:00:03.000Z";
                 wx_outcome := Resolved None;
                 wx_settled_at := "2025-01-01T00:00:04.000Z" |} ] in
  let w := ChatWidget.mount ∅ "f47ac10b" "2025-01-01T00:00:00.000Z" in
  ChatWidget.isLoading (ChatWidget.ui w) = false
  /\ Forall (fun x => JS.trim (wx_text x) <> "") xs
  /\ map role (ChatWidget.messages
                 (ChatWidget.ui (ChatWidget.run (flat_map widget_exchange_events xs) w)))
     = [assistant; user; assistant; user; assistant].
Proof.
  intros xs w.
  assert (Hl : ChatWidget.isLoading (ChatWidget.ui w) = false) by reflexivity.
  assert (Hall : Forall (fun x => JS.trim (wx_text x) <> "") xs)
    by (repeat constructor; vm_compute; discriminate).
  split; [exact Hl | split; [exact Hall |]].
  rewrite (proj1 (widget_composer_exchanges_pair xs w Hl Hall)). reflexivity.
Defined.

(** ** Tour navigation and the first screen *)

(** X22. Tour buttons other than the deep dive stay local to the tour:
    start, continue, a tracker click and the ask button append no message,
    send no request, and leave the loading flag, the session and the store
    alone.  The ask button hides the tour from every tour screen. *)
Theorem tour_navigation_is_local
  (w : Dashboard.World) (a : GuidedTour.Action) (now : string) :
  let w' := Dashboard.step w (Dashboard.TourClick a now) in
  (a <> GuidedTour.DeepDive ->
   Dashboard.messages (Dashboard.ui w') = Dashboard.messages (Dashboard.ui w)
   /\ Dashboard.posted w' = Dashboard.posted w
   /\ Dashboard.pending w' = Dashboard.pending w
   /\ Dashboard.isLoading (Dashboard.ui w') = Dashboard.isLoading (Dashboard.ui w)
   /\ Dashboard.sessionId (Dashboard.ui w') = Dashboard.sessionId (Dashboard.ui w)
   /\ Dashboard.localStorage w' = Dashboard.localStorage w)
  /\ (a = GuidedTour.AskQuestion -> is_Some (Dashboard.tour w) ->
      Dashboard.tourState w' = Dashboard.Exited
      /\ Dashboard.showGuidedTour (Dashboard.ui w') = false).
Proof.
  intros w'. unfold w', Dashboard.step. split.
  - intros Ha.
    destruct (render_frame (Dashboard.dispatch (Dashboard.TourClick a now) w))
      as (-> & -> & -> & -> & _).
    simpl. destruct (Dashboard.tour w) as [t |]; [| now repeat split].
    unfold GuidedTour.click.
    destruct (GuidedTour.rendered GuidedTour.stages a t); [| now repeat split].
    destruct a; simpl; try (now repeat split); try contradiction.
    + unfold GuidedTour.handleContinue.
      destruct (GuidedTour.currentStage t <? _); now repeat split.
    + unfold GuidedTour.handleStageClick.
      destruct ((index <=? _) || (index =? _)); now repeat split.
  - intros -> [t Ht]. simpl. rewrite Ht. simpl. now split.
Qed.

Lemma tour_navigation_is_local_witness :
  let w := Dashboard.run [Dashboard.TourClick GuidedTour.StartTour ""]
             (Dashboard.mount ∅ "f47ac10b") in
  GuidedTour.AskQuestion <> GuidedTour.DeepDive
  /\ is_Some (Dashboard.tour w)
  /\ Dashboard.tourState (Dashboard.step w (Dashboard.TourClick GuidedTour.AskQuestion ""))
     = Dashboard.Exited
  /\ Dashboard.posted (Dashboard.step w (Dashboard.TourClick GuidedTour.AskQuestion ""))
     = Dashboard.posted w.
Proof.
  intros w.
  assert (Ha : GuidedTour.AskQuestion <> GuidedTour.DeepDive) by discriminate.
  assert (Ht : is_Some (Dashboard.tour w)) by (simpl; eauto).
  destruct (tour_navigation_is_local w GuidedTour.AskQuestion "") as (Hloc & Hask).
  split; [exact Ha | split; [exact Ht | split]].
  - exact (proj1 (Hask eq_refl Ht)).
  - exact (proj1 (proj2 (Hloc Ha))).
Defined.

(** X23. What the dashboard shows first.  At mount, with or without a
    stored token, the timeline is empty, nothing is loading and the tour is
    on its welcome screen.  When the history of a resumed session arrives
    with at least one entry, the timeline takes the entries and the tour is
    hidden for good; when it arrives empty, or fails, the welcome screen of
    the tour stays.  Without a stored token no history is awaited, and an
    answer that arrives anyway is ignored. *)
Theorem first_screen_and_history
  (storage : gmap string string) (uuid : string) (o : HistoryOutcome) :
  let w := Dashboard.mount storage uuid in
  let w' := Dashboard.step w (Dashboard.HistorySettled o) in
  (Dashboard.messages (Dashboard.ui w) = []
   /\ Dashboard.isLoading (Dashboard.ui w) = false
   /\ Dashboard.posted w = []
   /\ Dashboard.tourState w = Dashboard.NotStarted)
  /\ (is_Some (Dashboard.fetching w) -> history_entries o <> [] ->
      Dashboard.messages (Dashboard.ui w') = map formatHistoryMessage (history_entries o)
      /\ Dashboard.showGuidedTour (Dashboard.ui w') = false
      /\ Dashboard.tourState w' = Dashboard.Exited)
  /\ (history_entries o = [] ->
      Dashboard.ui w' = Dashboard.ui w
      /\ Dashboard.tourState w' = Dashboard.NotStarted)
  /\ (Dashboard.fetching w = None -> Dashboard.ui w' = Dashboard.ui w).
Proof.
  intros w w'.
  assert (Hw : Dashboard.ui w
               = Dashboard.ui (Dashboard.setSessionId
                                 (match Dashboard.sessionId (Dashboard.ui w) with
                                  | Some sid => sid
                                  | None => uuid
                                  end) (Dashboard.initial_world storage))
               /\ Dashboard.tour w = Some GuidedTour.initial
               /\ Dashboard.posted w = []).
  { unfold w, Dashboard.mount.
    destruct (storage !! session_key) as [sid |]; [destruct (JS.truthy sid) |];
      repeat split. }
  destruct Hw as (Hu & Ht & Hp).
  split; [| split; [| split]].
  - rewrite Hu. unfold Dashboard.tourState. rewrite Ht. now repeat split.
  - intros [sid Hf] Hne. unfold w', Dashboard.step.
    cbn [Dashboard.dispatch]. rewrite Hf.
    destruct o as [| [[[[| msg rest] |]] |]]; try (now contradiction Hne).
    now repeat split.
  - intros He. unfold w', Dashboard.step. cbn [Dashboard.dispatch].
    assert (Hd : Dashboard.ui (match Dashboard.fetching w with
                               | Some _ => Dashboard.loadHistory_settled o w
                               | None => w
                               end) = Dashboard.ui w
                 /\ Dashboard.tour (match Dashboard.fetching w with
                                    | Some _ => Dashboard.loadHistory_settled o w
                                    | None => w
                                    end) = Dashboard.tour w).
    { destruct (Dashboard.fetching w); [| now split].
      destruct o as [| [[[[| msg rest] |]] |]]; now split. }
    destruct Hd as [Hdu Hdt].
    rewrite render_ui, Hdu. split; [reflexivity |].
    unfold Dashboard.tourState, Dashboard.render. rewrite Hdu, Hdt, Hu, Ht. reflexivity.
  - intros Hf. unfold w', Dashboard.step. cbn [Dashboard.dispatch]. rewrite Hf.
    apply render_ui.
Qed.

Lemma first_screen_and_history_witness :
  let storage : gmap string string := {[ session_key := "f47ac10b" ]} in
  let o := HistoryResolved (Some {| h_messages := Some [
             {| h_role := user; h_content := Some "Hello";
                h_timestamp := Some "2025-01-01T00:00:00.000Z";
                h_sources := None; h_visualization := None |}] |}) in
  is_Some (Dashboard.fetching (Dashboard.mount storage "unused"))
  /\ history_entries o <> []
  /\ Dashboard.tourState
       (Dashboard.step (Dashboard.mount storage "unused") (Dashboard.HistorySettled o))
     = Dashboard.Exited
  /\ history_entries HistoryRejected = []
  /\ Dashboard.tourState
       (Dashboard.step (Dashboard.mount storage "unused")
          (Dashboard.HistorySettled HistoryRejected))
     = Dashboard.NotStarted
  /\ Dashboard.fetching (Dashboard.mount ∅ "0b5e2d6c") = None
  /\ Dashboard.messages
       (Dashboard.ui (Dashboard.step (Dashboard.mount ∅ "0b5e2d6c")
                        (Dashboard.HistorySettled o)))
     = [].
Proof.
  intros storage o.
  assert (Hf : is_Some (Dashboard.fetching (Dashboard.mount storage "unused")))
    by (simpl; eauto).
  assert (Hne : history_entries o <> []) by discriminate.
  assert (He : history_entries HistoryRejected = []) by reflexivity.
  assert (Hn : Dashboard.fetching (Dashboard.mount ∅ "0b5e2d6c") = None) by reflexivity.
  split; [exact Hf | split; [exact Hne | split; [| split; [exact He | split; [| split; [exact Hn |]]]]]].
  - destruct (first_screen_and_history storage "unused" o) as (_ & Hload & _).
    exact (proj2 (proj2 (Hload Hf Hne))).
  - destruct (first_screen_and_history storage "unused" HistoryRejected) as (_ & _ & Hkeep & _).
    exact (proj2 (Hkeep He)).
  - destruct (first_screen_and_history ∅ "0b5e2d6c" o) as (_ & _ & _ & Hnone).
    rewrite (Hnone Hn). reflexivity.
Defined.
